(** * Agricultural landscape monitor: a shallow embedding of the Streamlit page

    The landscape monitor ([claude-test.py]) is a script over decoded JSON
    values. The embedding keeps the Python data as it is at run time: a
    decoded JSON document is a value of [json], a dictionary is an
    association list in insertion order, and every operation that Python
    checks dynamically ([.get] on a non-dictionary, [>] between a string and
    a number, iterating a number) returns its exception in the [py] error
    type.

    What the script calls in third-party libraries (requests, json,
    datetime's time zone, str and format of composite values, float
    arithmetic, pandas, s2sphere, folium's check of a feature) is gathered
    in the [Runtime] interface, and so is what Python takes from the Unicode
    database ([str.upper] and [int] of a text that is not ASCII; on ASCII
    text both are defined here); the definitions that need it take an
    arbitrary runtime. The static parts of the page (title, sidebar, column
    layout) are not represented.

    The cell finder ([get_s2.py]) hands a clicked position to s2sphere and
    shows what it returns; the conversion is the library's floating-point
    code and has no counterpart here. *)

From Stdlib Require Import ZArith List String Ascii Bool Lia DecimalString Permutation.
Import ListNotations.
Open Scope string_scope.
Open Scope Z_scope.

#[local] Set Warnings "-register-all".

(** ** Python values obtained from JSON *)

Module Py.

(** A binary64 float by its exact value: not-a-number, an infinity, or the
    dyadic rational [m * 2^e]. The scripts only compare, test and copy floats;
    arithmetic on them is left to the runtime. *)
Inductive pyfloat : Type :=
| FNan
| FInf (negative : bool)
| FFinite (m e : Z).

Inductive json : Type :=
| JNull
| JBool (b : bool)
| JInt (z : Z)
| JFloat (f : pyfloat)
| JStr (s : string)
| JList (l : list json)
| JDict (d : list (string * json)).

Inductive exn_kind : Type :=
| TypeError | AttributeError | ValueError | OverflowError | ZeroDivisionError
| KeyError | IndexError | JSONDecodeError.

Record exn : Type := Exn { kind : exn_kind; message : string }.

(** The result of evaluating a Python expression: a value or a raised
    exception. *)
Inductive py (A : Type) : Type :=
| Ok (a : A)
| Raise (e : exn).
Arguments Ok {A} a.
Arguments Raise {A} e.

Definition bind {A B} (c : py A) (k : A -> py B) : py B :=
  match c with
  | Ok a => k a
  | Raise e => Raise e
  end.

Definition type_name (v : json) : string :=
  match v with
  | JNull => "NoneType"
  | JBool _ => "bool"
  | JInt _ => "int"
  | JFloat _ => "float"
  | JStr _ => "str"
  | JList _ => "list"
  | JDict _ => "dict"
  end.

(** [bool(v)]: the truth value Python's [if v:] and [not v] test. *)
Definition truthy (v : json) : bool :=
  match v with
  | JNull => false
  | JBool b => b
  | JInt z => negb (z =? 0)
  | JFloat (FFinite m _) => negb (m =? 0)
  | JFloat _ => true
  | JStr s => negb (String.eqb s "")
  | JList l => match l with [] => false | _ => true end
  | JDict d => match d with [] => false | _ => true end
  end.

Fixpoint assoc (key : string) (d : list (string * json)) : option json :=
  match d with
  | [] => None
  | (k, v) :: rest => if String.eqb k key then Some v else assoc key rest
  end.

Definition quote (s : string) : string := "'" ++ s ++ "'".

Definition no_attribute (v : json) (attr : string) : exn :=
  Exn AttributeError (quote (type_name v) ++ " object has no attribute " ++ quote attr).

(** [o.get(key, default)]: only a dictionary has the method. *)
Definition get (o : json) (key : string) (default : json) : py json :=
  match o with
  | JDict d => Ok (match assoc key d with Some v => v | None => default end)
  | _ => Raise (no_attribute o "get")
  end.

Definition chars (s : string) : list json :=
  map (fun c => JStr (String c EmptyString)) (list_ascii_of_string s).

(** [for x in o]: the elements of a list, the keys of a dictionary, the
    characters of a string (a string is held as its bytes, so this is exact
    for ASCII text); every other value is not iterable. *)
Definition iter (o : json) : py (list json) :=
  match o with
  | JList l => Ok l
  | JDict d => Ok (map (fun kv => JStr (fst kv)) d)
  | JStr s => Ok (chars s)
  | _ => Raise (Exn TypeError (quote (type_name o) ++ " object is not iterable"))
  end.

(** [len(o)] (of a string: its bytes, the characters of ASCII text) *)
Definition len (o : json) : py Z :=
  match o with
  | JList l => Ok (Z.of_nat (List.length l))
  | JDict d => Ok (Z.of_nat (List.length d))
  | JStr s => Ok (Z.of_nat (String.length s))
  | _ => Raise (Exn TypeError ("object of type " ++ quote (type_name o) ++ " has no len()"))
  end.

(** *** Numbers and their order *)

(** The numeric view of a value: [bool] is a subclass of [int]. *)
Inductive num : Type :=
| NInt (z : Z)
| NFloat (f : pyfloat).

Definition as_num (v : json) : option num :=
  match v with
  | JBool b => Some (NInt (if b then 1 else 0))
  | JInt z => Some (NInt z)
  | JFloat f => Some (NFloat f)
  | _ => None
  end.

Definition float_of_num (n : num) : pyfloat :=
  match n with
  | NInt z => FFinite z 0
  | NFloat f => f
  end.

(** [m1 * 2^e1 > m2 * 2^e2], exactly. *)
Definition dyadic_gtb (m1 e1 m2 e2 : Z) : bool :=
  let e := Z.min e1 e2 in
  (m1 * 2 ^ (e1 - e)) >? (m2 * 2 ^ (e2 - e)).

(** Python compares an int with a float by value, without rounding the int;
    every comparison with a NaN is false. *)
Definition float_gtb (a b : pyfloat) : bool :=
  match a, b with
  | FNan, _ | _, FNan => false
  | FInf na, FInf nb => negb na && nb
  | FInf na, FFinite _ _ => negb na
  | FFinite _ _, FInf nb => nb
  | FFinite m1 e1, FFinite m2 e2 => dyadic_gtb m1 e1 m2 e2
  end.

Definition num_gtb (a b : num) : bool :=
  match a, b with
  | NInt x, NInt y => x >? y
  | _, _ => float_gtb (float_of_num a) (float_of_num b)
  end.

Definition not_supported (op : string) (a b : json) : exn :=
  Exn TypeError (quote op ++ " not supported between instances of "
                 ++ quote (type_name a) ++ " and " ++ quote (type_name b)).

Definition float_eqb (a b : pyfloat) : bool :=
  match a, b with
  | FNan, _ | _, FNan => false
  | FInf na, FInf nb => Bool.eqb na nb
  | FFinite m1 e1, FFinite m2 e2 =>
      negb (dyadic_gtb m1 e1 m2 e2) && negb (dyadic_gtb m2 e2 m1 e1)
  | _, _ => false
  end.

(** [a == b] on decoded JSON: numbers by value across int, bool and float,
    lists element by element, dictionaries key by key whatever the order. *)
Fixpoint eqb (a b : json) {struct a} : bool :=
  match a, b with
  | JNull, JNull => true
  | JStr s, JStr t => String.eqb s t
  | JList la, JList lb =>
      (fix go (la lb : list json) {struct la} : bool :=
         match la, lb with
         | [], [] => true
         | x :: xs, y :: ys => eqb x y && go xs ys
         | _, _ => false
         end) la lb
  | JDict da, JDict db =>
      (List.length da =? List.length db)%nat &&
      (fix go (da : list (string * json)) : bool :=
         match da with
         | [] => true
         | (k, v) :: rest =>
             match assoc k db with
             | Some w => eqb v w && go rest
             | None => false
             end
         end) da
  | (JBool _ | JInt _ | JFloat _), (JBool _ | JInt _ | JFloat _) =>
      match as_num a, as_num b with
      | Some x, Some y => float_eqb (float_of_num x) (float_of_num y)
      | _, _ => false
      end
  | _, _ => false
  end.

(** [a > b]: numbers by value, strings and lists lexicographically, and a
    [TypeError] for every other pair of JSON types. *)
Fixpoint gt (a b : json) {struct a} : py bool :=
  match a, b with
  | JStr s, JStr t => Ok (String.ltb t s)
  | JList la, JList lb =>
      (fix go (la lb : list json) {struct la} : py bool :=
         match la, lb with
         | [], _ => Ok false
         | _ :: _, [] => Ok true
         | x :: xs, y :: ys => if eqb x y then go xs ys else gt x y
         end) la lb
  | _, _ =>
      match as_num a, as_num b with
      | Some x, Some y => Ok (num_gtb x y)
      | _, _ => Raise (not_supported ">" a b)
      end
  end.

End Py.

Import Py.

Declare Scope py_scope.
Delimit Scope py_scope with py.
Notation "x <- c ;; k" := (Py.bind c (fun x => k))
  (at level 61, c at next level, right associativity) : py_scope.

(** ** String methods and conversions *)

Module Str.

Definition is_lower (c : ascii) : bool :=
  let n := nat_of_ascii c in ((97 <=? n) && (n <=? 122))%nat.

Definition is_upper (c : ascii) : bool :=
  let n := nat_of_ascii c in ((65 <=? n) && (n <=? 90))%nat.

Definition is_digit (c : ascii) : bool :=
  let n := nat_of_ascii c in ((48 <=? n) && (n <=? 57))%nat.

Definition upper_char (c : ascii) : ascii :=
  if is_lower c then ascii_of_nat (nat_of_ascii c - 32) else c.

Definition lower_char (c : ascii) : ascii :=
  if is_upper c then ascii_of_nat (nat_of_ascii c + 32) else c.

(** [s.upper()] for a text of ASCII characters: the letters a-z are raised,
    every other character is kept. *)
Fixpoint upper (s : string) : string :=
  match s with
  | EmptyString => EmptyString
  | String c r => String (upper_char c) (upper r)
  end.

(** [s.replace(a, b)] for one-character [a] and [b]. *)
Fixpoint replace (a b : ascii) (s : string) : string :=
  match s with
  | EmptyString => EmptyString
  | String c r => String (if Ascii.eqb c a then b else c) (replace a b r)
  end.

(** [s.title()]: a letter is raised after a character that is no letter and
    lowered after a letter. *)
Fixpoint title_from (after_letter : bool) (s : string) : string :=
  match s with
  | EmptyString => EmptyString
  | String c r =>
      if is_lower c || is_upper c
      then String (if after_letter then lower_char c else upper_char c) (title_from true r)
      else String c (title_from false r)
  end.

Definition title (s : string) : string := title_from false s.

(** [str(n)] for an int. *)
Definition of_Z (z : Z) : string :=
  DecimalString.NilZero.string_of_int (Z.to_int z).

(** The text holds ASCII characters only. *)
Fixpoint is_ascii (s : string) : bool :=
  match s with
  | EmptyString => true
  | String c r => (nat_of_ascii c <? 128)%nat && is_ascii r
  end.

(** The white space [int] skips around an ASCII literal: the space and the
    control characters tab to carriage return. *)
Definition is_space (c : ascii) : bool :=
  let n := nat_of_ascii c in
  ((n =? 32) || ((9 <=? n) && (n <=? 13)))%nat.

Fixpoint lstrip (l : list ascii) : list ascii :=
  match l with
  | c :: r => if is_space c then lstrip r else l
  | [] => []
  end.

Definition strip (l : list ascii) : list ascii :=
  rev (lstrip (rev (lstrip l))).

(** The digits of a decimal literal: underscores may stand between two
    digits and nowhere else. *)
Fixpoint digits (l : list ascii) (acc : Z) (after_digit : bool) : option Z :=
  match l with
  | [] => if after_digit then Some acc else None
  | c :: r =>
      if is_digit c
      then digits r (10 * acc + (Z.of_nat (nat_of_ascii c) - 48)) true
      else if Ascii.eqb c "_" && after_digit then digits r acc false
      else None
  end.

(** The interpreter refuses a literal of more than [max_str_digits] digits
    when the limit is set (it is 0 when there is none, as before Python
    3.11, and 4300 by default since); literals of at most 640 digits are
    never refused. *)
Definition too_long (max_str_digits : nat) (l : list ascii) : bool :=
  let n := List.length (filter is_digit l) in
  ((0 <? max_str_digits) && (max_str_digits <? n) && (640 <? n))%nat.

Definition checked_digits (max_str_digits : nat) (l : list ascii) : option Z :=
  if too_long max_str_digits l then None else digits l 0 false.

(** [int(s)] in base 10 for a text of ASCII characters: surrounding white
    space, one optional sign, digits. [None] stands for the [ValueError]
    Python raises. *)
Definition to_int (max_str_digits : nat) (s : string) : option Z :=
  match strip (list_ascii_of_string s) with
  | "-"%char :: r => option_map Z.opp (checked_digits max_str_digits r)
  | "+"%char :: r => checked_digits max_str_digits r
  | l => checked_digits max_str_digits l
  end.

End Str.

(** ** Calendar *)

Module Calendar.

(** Year and month (1-12) of the day [days] days after 1970-01-01, in the
    proleptic Gregorian calendar [datetime] uses. *)
Definition civil_from_days (days : Z) : Z * Z :=
  let z := days + 719468 in
  let era := z / 146097 in
  let doe := z - era * 146097 in
  let yoe := (doe - doe / 1460 + doe / 36524 - doe / 146096) / 365 in
  let doy := doe - (365 * yoe + yoe / 4 - yoe / 100) in
  let mp := (5 * doy + 2) / 153 in
  let m := if mp <? 10 then mp + 3 else mp - 9 in
  (yoe + era * 400 + (if m <=? 2 then 1 else 0), m).

(** [%B] in the C locale. *)
Definition month_name (m : Z) : string :=
  match m with
  | 1 => "January" | 2 => "February" | 3 => "March" | 4 => "April"
  | 5 => "May" | 6 => "June" | 7 => "July" | 8 => "August"
  | 9 => "September" | 10 => "October" | 11 => "November" | _ => "December"
  end.

(** Rounding [q / d] ([d > 0]) to the nearest integer, ties to even. *)
Definition round_half_even (q d : Z) : Z :=
  let f := q / d in
  let r := q mod d in
  if (2 * r >? d) || ((2 * r =? d) && Z.odd f) then f + 1 else f.

(** The whole seconds [datetime.fromtimestamp] keeps of its argument: an int
    as it is, a float rounded half-even to microseconds first. *)
Definition whole_seconds (t : num) : py Z :=
  match t with
  | NInt z => Ok z
  | NFloat FNan => Raise (Exn ValueError "cannot convert float NaN to integer")
  | NFloat (FInf _) => Raise (Exn OverflowError "cannot convert float infinity to integer")
  | NFloat (FFinite m e) =>
      if 0 <=? e then Ok (m * 2 ^ e)
      else Ok (round_half_even (m * 1000000) (2 ^ (- e)) / 1000000)
  end.

End Calendar.

(** ** The landscape monitor page ([claude-test.py]) *)

Module Monitor.

Open Scope py_scope.

(** One row of the exported table: column name and cell, in column order. *)
Definition row : Type := list (string * json).

(** An HTTP request as [requests.post(url, json=payload, headers=headers)]
    sends it. *)
Record http_request : Type :=
  { url : string; payload : json; headers : list (string * string) }.

(** What the page takes from its libraries and its platform. *)
Record Runtime : Type :=
  { (** seconds to add to a UTC timestamp to get local time (the zone
        [datetime.fromtimestamp] converts to) *)
    utc_offset : Z -> Z;
    (** [str(v)] of a float, a list or a dictionary *)
    repr : json -> string;
    (** [format(v, spec)], the conversion behind [f"{v:spec}"] *)
    format : json -> string -> py string;
    (** [a + b] and [a / b] on numbers *)
    add : json -> json -> py json;
    truediv : json -> json -> py json;
    (** [json.loads(s)] and [json.dumps(v, indent=2)] *)
    json_loads : string -> py json;
    json_dumps : json -> string;
    (** [pd.DataFrame(rows).to_csv(index=False)] *)
    to_csv : list row -> string;
    (** [requests.post] followed by [raise_for_status] and [resp.json()]: the
        text of the [RequestException] raised, or the decoded body *)
    requests_post : http_request -> string + json;
    (** [s2sphere.CellId(n).to_lat_lng()], in degrees *)
    cell_center : Z -> py (pyfloat * pyfloat);
    (** [s.upper()] and [int(s)] for a text that holds a character outside
        ASCII (Unicode's case mapping, its decimal digits and white space);
        [None] stands for the [ValueError] of [int] *)
    upper_unicode : string -> string;
    int_unicode : string -> option Z;
    (** [sys.get_int_max_str_digits()], 0 where the interpreter has no limit *)
    int_max_str_digits : nat;
    (** [folium.GeoJson(feature, style_function=..., popup=...)]: the
        exception folium raises for a feature it does not take *)
    folium_geojson : json -> py unit }.

(** *** Widgets *)

Inductive popup : Type :=
| NoData
| FieldInfo (field_id area season_start season_end
             crop_1 conf_1 crop_2 conf_2 : string).

Record overlay : Type :=
  { feature_of : json; fill_color : string; popup_of : popup }.

Record folium_map : Type :=
  { location : pyfloat * pyfloat;
    zoom_start : Z;
    overlays : list overlay;
    legend : list (string * string) }.

Inductive widget : Type :=
| StError (msg : string)
| StWarning (msg : string)
| StSuccess (msg : string)
| StInfo (msg : string)
| StSpinner (msg : string)
| StDownloadButton (label data file_name mime : string)
| StFolium (m : folium_map)
| StSubheader (text : string)
| StMetric (label : string) (value : json)
| StMarkdown (text : string)
| StJson (v : json)
| StExpander (label : string) (body : list widget).

(** A helper that writes to the page and may raise: what it wrote, then what
    it returned. *)
Definition ui (A : Type) : Type := list widget * py A.

Definition uret {A} (a : A) : ui A := ([], Ok a).

Definition ubind {A B} (c : ui A) (k : A -> ui B) : ui B :=
  match c with
  | (w, Ok a) => let (w', r) := k a in ((w ++ w')%list, r)
  | (w, Raise e) => (w, Raise e)
  end.

Definition lift {A} (c : py A) : ui A := ([], c).

Definition emit (w : widget) : ui unit := ([w], Ok tt).

Notation "x <~ c ;; k" := (ubind c (fun x => k))
  (at level 61, c at next level, right associativity) : py_scope.

Fixpoint foldM {A B} (f : A -> B -> py A) (l : list B) (a : A) : py A :=
  match l with
  | [] => Ok a
  | x :: rest => a' <- f a x ;; foldM f rest a'
  end.

Fixpoint mapM {A B} (f : A -> py B) (l : list A) : py (list B) :=
  match l with
  | [] => Ok []
  | x :: rest => y <- f x ;; ys <- mapM f rest ;; Ok (y :: ys)
  end.

(** *** Crop legend mapping *)

Definition CROP_COLORS : list (string * string) :=
  [ ("NO_PREDICTION", "#CCCCCC");
    ("UNKNOWN_CROP", "#999999");
    ("BAJRA", "#8B4513");
    ("CHILLI", "#FF0000");
    ("CORN", "#FFD700");
    ("COTTON", "#FFFFFF");
    ("GRAM", "#DEB887");
    ("GROUNDNUT", "#CD853F");
    ("MUSTARD", "#FFFF00");
    ("RICE", "#90EE90");
    ("SORGHUM", "#A0522D");
    ("SOYBEANS", "#228B22");
    ("SUGARCANE", "#00CED1");
    ("WHEAT", "#F4A460") ].

Fixpoint lookup (key : string) (table : list (string * string)) : option string :=
  match table with
  | [] => None
  | (k, v) :: rest => if String.eqb k key then Some v else lookup key rest
  end.

Section WithRuntime.

Context (R : Runtime).

(** [s.upper()] *)
Definition py_upper (s : string) : string :=
  if Str.is_ascii s then Str.upper s else upper_unicode R s.

(** [int(s)] in base 10; [None] stands for its [ValueError]. *)
Definition py_int (s : string) : option Z :=
  if Str.is_ascii s then Str.to_int (int_max_str_digits R) s else int_unicode R s.

(** [crop_name.upper().replace(" ", "_")] (a space is one byte of the text,
    and no other character holds that byte) *)
Definition normalize (crop_name : string) : string :=
  Str.replace " " "_" (py_upper crop_name).

Definition get_crop_color (crop_name : json) : py string :=
  match crop_name with
  | JStr s =>
      Ok (match lookup (normalize s) CROP_COLORS with
          | Some color => color
          | None => "#666666"
          end)
  | _ => Raise (no_attribute crop_name "upper")
  end.

(** [str(v)], as an f-string without a format spec inserts it. *)
Definition str (v : json) : string :=
  match v with
  | JNull => "None"
  | JBool true => "True"
  | JBool false => "False"
  | JInt z => Str.of_Z z
  | JStr s => s
  | _ => repr R v
  end.

(** [datetime.fromtimestamp(timestamp).strftime("%B %Y")]: outside the years
    1 to 9999 of local time the conversion raises (the errors a platform
    raises for a timestamp beyond its [time_t] are counted with them). *)
Definition strftime_month_year (timestamp : json) : py string :=
  match as_num timestamp with
  | Some n =>
      secs <- Calendar.whole_seconds n ;;
      let (y, m) := Calendar.civil_from_days ((secs + utc_offset R secs) / 86400) in
      if (1 <=? y) && (y <=? 9999)
      then Ok (Calendar.month_name m ++ " " ++ Str.of_Z y)
      else Raise (Exn ValueError ("year " ++ Str.of_Z y ++ " is out of range"))
  | None =>
      Raise (Exn TypeError (quote (type_name timestamp)
                            ++ " object cannot be interpreted as an integer"))
  end.

Definition timestamp_to_month_year (timestamp : json) : py string :=
  if truthy timestamp then
    positive <- gt timestamp (JInt 0) ;;
    if positive then strftime_month_year timestamp else Ok "N/A"
  else Ok "N/A".

(** *** The time-period selector *)

Record period : Type :=
  { period_key : string; label : string; start_ts : json; end_ts : json }.

(** The body of the inner loop, on the pair [(latest_period, max_timestamp)].
    [and] evaluates its operands from the left and stops at the first false
    one. *)
Definition scan_prediction (acc : option period * json) (pred : json)
  : py (option period * json) :=
  let max_timestamp := snd acc in
  start_ts <- get pred "start_timestamp_sec" (JInt 0) ;;
  end_ts <- get pred "end_timestamp_sec" (JInt 0) ;;
  later <- gt start_ts max_timestamp ;;
  start_ok <- (if later then gt start_ts (JInt 0) else Ok false) ;;
  end_ok <- (if start_ok then gt end_ts (JInt 0) else Ok false) ;;
  if end_ok then
    label_start <- timestamp_to_month_year start_ts ;;
    label_end <- timestamp_to_month_year end_ts ;;
    Ok (Some {| period_key := str start_ts ++ "_" ++ str end_ts;
                label := label_start ++ " - " ++ label_end;
                start_ts := start_ts;
                end_ts := end_ts |},
        start_ts)
  else Ok acc.

Definition scan_feature (acc : option period * json) (feature : json)
  : py (option period * json) :=
  props <- get feature "properties" (JDict []) ;;
  predictions <- get props "monitoring_prediction" (JList []) ;;
  preds <- iter predictions ;;
  foldM scan_prediction preds acc.

Definition get_latest_time_period (features : json) : py (option period) :=
  fs <- iter features ;;
  acc <- foldM scan_feature fs (None, JInt 0) ;;
  Ok (fst acc).

(** *** Popups and the map *)

(** [max(predictions, key=lambda p: p.get("start_timestamp_sec", 0))]: the
    first element whose key no later key exceeds. *)
Definition max_step (best : json * json) (p : json) : py (json * json) :=
  key <- get p "start_timestamp_sec" (JInt 0) ;;
  greater <- gt key (snd best) ;;
  Ok (if greater then (p, key) else best).

Definition max_by_start (predictions : json) : py json :=
  preds <- iter predictions ;;
  match preds with
  | [] => Raise (Exn ValueError "max() arg is an empty sequence")
  | p :: rest =>
      key <- get p "start_timestamp_sec" (JInt 0) ;;
      best <- foldM max_step rest (p, key) ;;
      Ok (fst best)
  end.

(** [predictions[0]] *)
Definition first_item (predictions : json) : py json :=
  match predictions with
  | JList (p :: _) => Ok p
  | JList [] => Raise (Exn IndexError "list index out of range")
  | JStr (String c _) => Ok (JStr (String c EmptyString))
  | JStr EmptyString => Raise (Exn IndexError "string index out of range")
  | JDict _ => Raise (Exn KeyError "0")
  | _ => Raise (Exn TypeError (quote (type_name predictions) ++ " object is not subscriptable"))
  end.

(** The popup of a feature. The HTML around the interpolated values is fixed
    text; the popup is kept as the eight values the template inserts, in the
    order the f-string evaluates them. *)
Definition create_feature_popup (feature : json) (use_latest : bool) : py popup :=
  props <- get feature "properties" (JDict []) ;;
  predictions <- get props "monitoring_prediction" (JList []) ;;
  selected_pred <-
    (if truthy predictions
     then if use_latest then max_by_start predictions else first_item predictions
     else Ok JNull) ;;
  if negb (truthy selected_pred) then Ok NoData
  else
    crop_pred <- get selected_pred "crop_prediction" (JDict []) ;;
    field_id <- get feature "id" (JStr "N/A") ;;
    area <- get props "area_sq_m" (JInt 0) ;;
    area_text <- format R area ".2f" ;;
    season_start <- get selected_pred "start_timestamp_sec" JNull ;;
    start_text <- timestamp_to_month_year season_start ;;
    season_end <- get selected_pred "end_timestamp_sec" JNull ;;
    end_text <- timestamp_to_month_year season_end ;;
    crop_1 <- get crop_pred "crop_1" (JStr "N/A") ;;
    conf_1 <- get crop_pred "conf_1" (JInt 0) ;;
    conf_1_text <- format R conf_1 ".2%" ;;
    crop_2 <- get crop_pred "crop_2" (JStr "N/A") ;;
    conf_2 <- get crop_pred "conf_2" (JInt 0) ;;
    conf_2_text <- format R conf_2 ".2%" ;;
    Ok (FieldInfo (str field_id) area_text start_text end_text
                  (str crop_1) conf_1_text (str crop_2) conf_2_text).

(** The crop name the map colours a feature by. *)
Definition feature_crop_name (feature : json) : py json :=
  props <- get feature "properties" (JDict []) ;;
  predictions <- get props "monitoring_prediction" (JList []) ;;
  if truthy predictions then
    latest_pred <- max_by_start predictions ;;
    crop_pred <- get latest_pred "crop_prediction" (JDict []) ;;
    get crop_pred "crop_1" (JStr "NO_PREDICTION")
  else Ok (JStr "NO_PREDICTION").

(** The body of the loop of [create_map] that adds the features. *)
Definition feature_overlay (feature : json) : py overlay :=
  crop_name <- feature_crop_name feature ;;
  color <- get_crop_color crop_name ;;
  popup_html <- create_feature_popup feature true ;;
  _ <- folium_geojson R feature ;;
  Ok {| feature_of := feature; fill_color := color; popup_of := popup_html |}.

(** The legend: one entry per crop of the table, colour and displayed name. *)
Definition legend_entries : list (string * string) :=
  map (fun entry => (snd entry, Str.title (Str.replace "_" " " (fst entry))))
      CROP_COLORS.

(** The centre of the map, or the error message [create_map] shows:
    [ValueError] from [int], any exception from the cell conversion. *)
Definition map_center (cell_id_input : string) : (pyfloat * pyfloat) + string :=
  match py_int cell_id_input with
  | None => inr "Invalid S2 Cell ID format. Please ensure it is a numeric ID."
  | Some n =>
      match cell_center R n with
      | Ok center => inl center
      | Raise e =>
          match kind e with
          | ValueError | JSONDecodeError =>
              inr "Invalid S2 Cell ID format. Please ensure it is a numeric ID."
          | _ => inr ("Error calculating map center: " ++ message e)
          end
      end
  end.

Definition create_map (geojson_data : json) (cell_id_input : string)
                      (use_latest : bool) : ui (option folium_map) :=
  features <~ lift (get geojson_data "features" (JList [])) ;;
  if negb (truthy features) then
    _ <~ emit (StWarning "No features found in the data.") ;;
    uret None
  else
    match map_center cell_id_input with
    | inr msg =>
        _ <~ emit (StError msg) ;;
        uret None
    | inl center =>
        fs <~ lift (iter features) ;;
        added <~ lift (mapM feature_overlay fs) ;;
        uret (Some {| location := center;
                      zoom_start := 13;
                      overlays := added;
                      legend := legend_entries |})
    end.

(** *** The exported table *)

Definition csv_row (feature props pred : json) : py row :=
  crop_pred <- get pred "crop_prediction" (JDict []) ;;
  field_id <- get feature "id" (JStr "") ;;
  area <- get props "area_sq_m" (JInt 0) ;;
  alu_type <- get props "alu_type" (JStr "") ;;
  class_confidence <- get props "class_confidence" (JInt 0) ;;
  start_ts <- get pred "start_timestamp_sec" (JInt 0) ;;
  season_start <- timestamp_to_month_year start_ts ;;
  end_ts <- get pred "end_timestamp_sec" (JInt 0) ;;
  season_end <- timestamp_to_month_year end_ts ;;
  crop_1 <- get crop_pred "crop_1" (JStr "") ;;
  conf_1 <- get crop_pred "conf_1" (JInt 0) ;;
  crop_2 <- get crop_pred "crop_2" (JStr "") ;;
  conf_2 <- get crop_pred "conf_2" (JInt 0) ;;
  crop_3 <- get crop_pred "crop_3" (JStr "") ;;
  conf_3 <- get crop_pred "conf_3" (JInt 0) ;;
  Ok [ ("Field_ID", field_id);
       ("Area_sqm", area);
       ("ALU_Type", alu_type);
       ("Class_Confidence", class_confidence);
       ("Season_Start", JStr season_start);
       ("Season_End", JStr season_end);
       ("Primary_Crop", crop_1);
       ("Primary_Confidence", conf_1);
       ("Secondary_Crop", crop_2);
       ("Secondary_Confidence", conf_2);
       ("Tertiary_Crop", crop_3);
       ("Tertiary_Confidence", conf_3) ].

Definition feature_rows (rows : list row) (feature : json) : py (list row) :=
  props <- get feature "properties" (JDict []) ;;
  predictions <- get props "monitoring_prediction" (JList []) ;;
  preds <- iter predictions ;;
  foldM (fun rows pred => r <- csv_row feature props pred ;; Ok (rows ++ [r])%list)
        preds rows.

Definition prepare_csv_data (geojson_data : json) : py (list row) :=
  features <- get geojson_data "features" (JList []) ;;
  fs <- iter features ;;
  foldM feature_rows fs [].

(** *** The API client and the response parser *)

Record session_state : Type :=
  { geojson_data : json; latest_period : option period; raw_response : json }.

(** The session of a new visitor: the three keys are set to [None]. *)
Definition initial_session : session_state :=
  {| geojson_data := JNull; latest_period := None; raw_response := JNull |}.

(** One run of the script: the session it reads and writes, what it has
    written to the page, and the requests it has sent. *)
Record page : Type :=
  { session : session_state; shown : list widget; sent : list http_request }.

(** A step of the script. An exception ends the run and keeps what was
    stored, shown and sent before it. *)
Definition script (A : Type) : Type := page -> page * py A.

Definition sret {A} (a : A) : script A := fun p => (p, Ok a).

Definition sbind {A B} (c : script A) (k : A -> script B) : script B :=
  fun p =>
    match c p with
    | (p', Ok a) => k a p'
    | (p', Raise e) => (p', Raise e)
    end.

Notation "x <== c ;; k" := (sbind c (fun x => k))
  (at level 61, c at next level, right associativity) : py_scope.

Definition eval {A} (c : py A) : script A := fun p => (p, c).

Definition show (w : widget) : script unit :=
  fun p => ({| session := session p; shown := (shown p ++ [w])%list; sent := sent p |}, Ok tt).

Definition run_ui {A} (c : ui A) : script A :=
  fun p => ({| session := session p; shown := (shown p ++ fst c)%list; sent := sent p |}, snd c).

Definition post (req : http_request) : script (string + json) :=
  fun p => ({| session := session p; shown := shown p; sent := (sent p ++ [req])%list |},
            Ok (requests_post R req)).

Definition read : script session_state := fun p => (p, Ok (session p)).

Definition write (s : session_state) : script unit :=
  fun p => ({| session := s; shown := shown p; sent := sent p |}, Ok tt).

Definition monitor_request (api_key cell_id : string) : http_request :=
  {| url := "https://agriculturalunderstanding.googleapis.com/v1:monitorLandscape?key="
            ++ api_key;
     payload := JDict [("locationSpecifier", JDict [("s2CellId", JStr cell_id)])];
     headers := [("Content-Type", "application/json")] |}.

(** Calls the monitoring API once; [None] ([JNull]) after a reported
    [RequestException]. *)
Definition fetch_agri_data (api_key cell_id : string) : script json :=
  _ <== show (StSpinner "Fetching data from API...") ;;
  resp <== post (monitor_request api_key cell_id) ;;
  match resp with
  | inr body => sret body
  | inl e =>
      _ <== show (StError ("API Request Failed: " ++ e)) ;;
      sret JNull
  end.

(** [json.loads(v)] of a decoded value: only text can be decoded. *)
Definition loads (v : json) : py json :=
  match v with
  | JStr s => json_loads R s
  | _ => Raise (Exn TypeError ("the JSON object must be str, bytes or bytearray, not "
                               ++ type_name v))
  end.

Definition embedded_geojson (api_response : json) : py json :=
  monitored_landscape <- get api_response "monitoredLandscape" (JDict []) ;;
  geojson_str <- get monitored_landscape "geojson" (JStr "{}") ;;
  loads geojson_str.

(** Every exception of the extraction is caught, reported, and turned into
    [None]. *)
Definition parse_geojson_data (api_response : json) : ui json :=
  match embedded_geojson api_response with
  | Ok geojson => uret geojson
  | Raise e =>
      _ <~ emit (StError ("Error parsing GeoJSON: " ++ message e)) ;;
      uret JNull
  end.

(** *** The script: fetch handler, then display *)

Record inputs : Type :=
  { API_KEY_AGRI : option string;   (** the environment variable, if set *)
    s2_cell_id : string;            (** the sidebar's text input *)
    fetch_button : bool }.          (** whether this run follows a click *)

(** [os.getenv("API_KEY_AGRI", "")] *)
Definition api_key (i : inputs) : string :=
  match API_KEY_AGRI i with
  | Some key => key
  | None => ""
  end.

Definition store_raw_response (v : json) : script unit :=
  s <== read ;;
  write {| geojson_data := geojson_data s; latest_period := latest_period s;
           raw_response := v |}.

Definition store_geojson_data (v : json) : script unit :=
  s <== read ;;
  write {| geojson_data := v; latest_period := latest_period s;
           raw_response := raw_response s |}.

Definition store_latest_period (v : option period) : script unit :=
  s <== read ;;
  write {| geojson_data := geojson_data s; latest_period := v;
           raw_response := raw_response s |}.

Definition fetch_handler (i : inputs) : script unit :=
  if fetch_button i then
    if String.eqb (api_key i) "" then show (StError "Please enter an API key.")
    else
      api_response <== fetch_agri_data (api_key i) (s2_cell_id i) ;;
      if truthy api_response then
        _ <== store_raw_response api_response ;;
        geojson <== run_ui (parse_geojson_data api_response) ;;
        if truthy geojson then
          _ <== store_geojson_data geojson ;;
          features <== eval (get geojson "features" (JList [])) ;;
          latest <== eval (get_latest_time_period features) ;;
          _ <== store_latest_period latest ;;
          n <== eval (len features) ;;
          show (StSuccess ("Data fetched successfully! Found " ++ Str.of_Z n ++ " fields."))
        else sret tt
      else sret tt
  else sret tt.

(** [sum(f.get("properties", {}).get("area_sq_m", 0) for f in features)] *)
Definition total_area_of (features : json) : py json :=
  fs <- iter features ;;
  foldM (fun total f =>
           props <- get f "properties" (JDict []) ;;
           area <- get props "area_sq_m" (JInt 0) ;;
           add R total area)
        fs (JInt 0).

Definition raw_response_viewer (i : inputs) (raw : json) : list widget :=
  if truthy raw then
    [ StJson raw;
      StDownloadButton "📥 Download Raw JSON" (json_dumps R raw)
                       ("agri_raw_response_" ++ s2_cell_id i ++ ".json")
                       "application/json" ]
  else [].

(** The branch taken when there is data to display. *)
Definition display_data (i : inputs) (s : session_state) : script unit :=
  _ <== show (StInfo "📅 **Displaying Latest Season Data") ;;
  csv_data <== eval (prepare_csv_data (geojson_data s)) ;;
  _ <== show (StDownloadButton "📥 Download CSV" (to_csv R csv_data)
                              ("agri_landscape_" ++ s2_cell_id i ++ ".csv") "text/csv") ;;
  folium_map <== run_ui (create_map (geojson_data s) (s2_cell_id i) true) ;;
  _ <== match folium_map with
       | Some m => show (StFolium m)
       | None => sret tt
       end ;;
  _ <== show (StSubheader "📊 Summary Statistics") ;;
  features <== eval (get (geojson_data s) "features" (JList [])) ;;
  n <== eval (len features) ;;
  _ <== show (StMetric "Total Fields" (JInt n)) ;;
  total_area <== eval (total_area_of features) ;;
  total_text <== eval (format R total_area ".2f") ;;
  _ <== show (StMetric "Total Area" (JStr (total_text ++ " m²"))) ;;
  avg_area <== eval (if truthy features
                    then n' <- len features ;; truediv R total_area (JInt n')
                    else Ok (JInt 0)) ;;
  avg_text <== eval (format R avg_area ".2f") ;;
  _ <== show (StMetric "Avg Field Area" (JStr (avg_text ++ " m²"))) ;;
  _ <== show (StMarkdown "---") ;;
  _ <== show (StSubheader "📄 Raw API Response") ;;
  show (StExpander "View Raw JSON Data" (raw_response_viewer i (raw_response s))).

Definition initial_prompt : string :=
  "👈 Enter your API key and S2 Cell ID, then click 'Fetch Data' to begin.".

Definition has_period (p : option period) : bool :=
  match p with
  | Some _ => true
  | None => false
  end.

(** The condition of the display: both the stored collection and the stored period must
    be truthy (a stored period is a non-empty dictionary). *)
Definition display (i : inputs) : script unit :=
  s <== read ;;
  if truthy (geojson_data s) && has_period (latest_period s)
  then display_data i s
  else show (StInfo initial_prompt).

(** One run of the page. *)
Definition run_page (i : inputs) : script unit :=
  _ <== fetch_handler i ;;
  display i.

(** A step that sends nothing, stores nothing, and only adds to the page. *)
Definition quiet {A : Type} (c : script A) : Prop :=
  forall p,
    sent (fst (c p)) = sent p
    /\ session (fst (c p)) = session p
    /\ exists more, shown (fst (c p)) = (shown p ++ more)%list.

(** The page at the start of a run: nothing shown, nothing sent. *)
Definition fresh_page (s : session_state) : page :=
  {| session := s; shown := []; sent := [] |}.

Definition run (i : inputs) (s : session_state) : page * py unit :=
  run_page i (fresh_page s).

(** *** Well-formed collections

    The shape the API documents for the embedded collection: features and
    predictions are objects, a prediction's timestamps are integer seconds
    that [datetime] can represent, and every key may be absent. *)

(** The label of a positive timestamp that local time puts in the years 1 to
    9999. *)
Definition month_year (t : Z) : string :=
  let (y, m) := Calendar.civil_from_days ((t + utc_offset R t) / 86400) in
  Calendar.month_name m ++ " " ++ Str.of_Z y.

Definition representable (t : Z) : bool :=
  let (y, _) := Calendar.civil_from_days ((t + utc_offset R t) / 86400) in
  (1 <=? y) && (y <=? 9999).

Definition absent_or (ok : json -> bool) (key : string) (d : list (string * json)) : bool :=
  match assoc key d with
  | Some v => ok v
  | None => true
  end.

Definition is_timestamp (v : json) : bool :=
  match v with
  | JInt t => (t <=? 0) || representable t
  | _ => false
  end.

Definition is_dict (v : json) : bool :=
  match v with
  | JDict _ => true
  | _ => false
  end.

Definition is_list_of (ok : json -> bool) (v : json) : bool :=
  match v with
  | JList l => forallb ok l
  | _ => false
  end.

Definition wf_prediction (pred : json) : bool :=
  match pred with
  | JDict d =>
      absent_or is_timestamp "start_timestamp_sec" d
      && absent_or is_timestamp "end_timestamp_sec" d
      && absent_or is_dict "crop_prediction" d
  | _ => false
  end.

Definition wf_properties (props : json) : bool :=
  match props with
  | JDict d => absent_or (is_list_of wf_prediction) "monitoring_prediction" d
  | _ => false
  end.

Definition wf_feature (feature : json) : bool :=
  match feature with
  | JDict d => absent_or wf_properties "properties" d
  | _ => false
  end.

Definition wf_collection (geojson : json) : bool :=
  match geojson with
  | JDict d => absent_or (is_list_of wf_feature) "features" d
  | _ => false
  end.

End WithRuntime.

(** *** Reading a collection

    The parts of a collection the properties below speak about. *)

Definition entries (v : json) : list (string * json) :=
  match v with
  | JDict d => d
  | _ => []
  end.

Definition items (v : json) : list json :=
  match v with
  | JList l => l
  | _ => []
  end.

Definition field (key : string) (v : json) : option json := assoc key (entries v).

Definition field_or (key : string) (default : json) (v : json) : json :=
  match field key v with
  | Some x => x
  | None => default
  end.

Definition features_of (geojson : json) : list json :=
  items (field_or "features" (JList []) geojson).

Definition properties_of (feature : json) : json :=
  field_or "properties" (JDict []) feature.

Definition predictions_of (feature : json) : list json :=
  items (field_or "monitoring_prediction" (JList []) (properties_of feature)).

Definition crop_prediction_of (pred : json) : json :=
  field_or "crop_prediction" (JDict []) pred.

Definition timestamp_of (key : string) (pred : json) : Z :=
  match field key pred with
  | Some (JInt t) => t
  | _ => 0
  end.

(** Start and end of a prediction, 0 for an absent one. *)
Definition timestamps_of (pred : json) : Z * Z :=
  (timestamp_of "start_timestamp_sec" pred, timestamp_of "end_timestamp_sec" pred).

(** A prediction is valid when both timestamps are strictly positive. *)
Definition valid (ts : Z * Z) : Prop := 0 < fst ts /\ 0 < snd ts.

Definition validb (ts : Z * Z) : bool := (0 <? fst ts) && (0 <? snd ts).

Definition all_timestamps (features : list json) : list (Z * Z) :=
  flat_map (fun f => map timestamps_of (predictions_of f)) features.

(** The (feature, prediction) pairs of a collection, in order. *)
Definition pairs_of (geojson : json) : list (json * json) :=
  flat_map (fun f => map (pair f) (predictions_of f)) (features_of geojson).

(** The prediction list of a feature is absent or empty. *)
Definition lacks_predictions (feature : json) : bool :=
  is_dict feature && is_dict (properties_of feature)
  && negb (truthy (field_or "monitoring_prediction" (JList []) (properties_of feature))).

(** Where a column of the table comes from. *)
Inductive source : Type := OfFeature | OfProperties | OfCropPrediction.

Definition source_of (src : source) (feature pred : json) : json :=
  match src with
  | OfFeature => feature
  | OfProperties => properties_of feature
  | OfCropPrediction => crop_prediction_of pred
  end.

(** The columns copied from the collection: column, source, key, default. *)
Definition copied_columns : list (string * source * string * json) :=
  [ ("Field_ID", OfFeature, "id", JStr "");
    ("Area_sqm", OfProperties, "area_sq_m", JInt 0);
    ("ALU_Type", OfProperties, "alu_type", JStr "");
    ("Class_Confidence", OfProperties, "class_confidence", JInt 0);
    ("Primary_Crop", OfCropPrediction, "crop_1", JStr "");
    ("Primary_Confidence", OfCropPrediction, "conf_1", JInt 0);
    ("Secondary_Crop", OfCropPrediction, "crop_2", JStr "");
    ("Secondary_Confidence", OfCropPrediction, "conf_2", JInt 0);
    ("Tertiary_Crop", OfCropPrediction, "crop_3", JStr "");
    ("Tertiary_Confidence", OfCropPrediction, "conf_3", JInt 0) ].

(** The two season columns and the timestamp each one formats. *)
Definition season_columns : list (string * string) :=
  [ ("Season_Start", "start_timestamp_sec"); ("Season_End", "end_timestamp_sec") ].

(** The row of a pair: what [prepare_csv_data] appends for it. *)
Definition row_of (R : Runtime) (pair : json * json) (r : row) : Prop :=
  csv_row R (fst pair) (properties_of (fst pair)) (snd pair) = Ok r.

(** The cell of a copied column is the field where the source has it and the
    column's default, an empty string or a zero, where it is missing. *)
Definition copies_fields (pair : json * json) (r : row) : Prop :=
  forall col src key default,
    In (col, src, key, default) copied_columns ->
    (default = JStr "" \/ default = JInt 0)
    /\ assoc col r
       = Some (match field key (source_of src (fst pair) (snd pair)) with
               | Some v => v
               | None => default
               end).

(** The cell of a season column is the month and year of a positive
    timestamp, and the text N/A for a missing or non-positive one. *)
Definition formats_seasons (R : Runtime) (pair : json * json) (r : row) : Prop :=
  forall col key,
    In (col, key) season_columns ->
    assoc col r
    = Some (JStr (match field key (snd pair) with
                  | Some _ =>
                      if 0 <? timestamp_of key (snd pair)
                      then month_year R (timestamp_of key (snd pair))
                      else "N/A"
                  | None => "N/A"
                  end)).

Definition none_valid (seen : list (Z * Z)) : Prop :=
  forall ts, In ts seen -> ~ valid ts.

(** [p] is built from a valid pair of [seen] whose start no valid pair of
    [seen] exceeds. *)
Definition latest_of (R : Runtime) (seen : list (Z * Z)) (p : period) : Prop :=
  exists s e,
    In (s, e) seen /\ valid (s, e)
    /\ (forall ts, In ts seen -> valid ts -> fst ts <= s)
    /\ start_ts p = JInt s /\ end_ts p = JInt e
    /\ label p = month_year R s ++ " - " ++ month_year R e
    /\ period_key p = Str.of_Z s ++ "_" ++ Str.of_Z e.

(** What the scan holds after the pairs [seen]: no period and a maximum of 0
    while none was valid, the latest period and its start afterwards. *)
Definition scanned (R : Runtime) (seen : list (Z * Z)) (acc : option period * json) : Prop :=
  exists m,
    snd acc = JInt m
    /\ match fst acc with
       | None => m = 0 /\ none_valid seen
       | Some p => latest_of R seen p /\ start_ts p = JInt m
       end.

(** *** More vocabulary *)

Definition start_of (pred : json) : Z := timestamp_of "start_timestamp_sec" pred.

(** [p] is the first prediction of [preds] with the greatest start. *)
Definition first_latest (p : json) (preds : list json) : Prop :=
  exists before after,
    preds = (before ++ p :: after)%list
    /\ (forall q, In q before -> start_of q < start_of p)
    /\ (forall q, In q after -> start_of q <= start_of p).

(** [ts] is the first valid pair of [all] with the greatest start among the
    valid ones. *)
Definition first_valid_latest (ts : Z * Z) (all : list (Z * Z)) : Prop :=
  exists before after,
    all = (before ++ ts :: after)%list
    /\ valid ts
    /\ (forall x, In x before -> valid x -> fst x < fst ts)
    /\ (forall x, In x after -> valid x -> fst x <= fst ts).

(** What the scan holds after the pairs [seen], with the position of the
    selected pair. *)
Definition scanned_first (seen : list (Z * Z)) (acc : option period * json) : Prop :=
  exists m,
    snd acc = JInt m
    /\ match fst acc with
       | None => m = 0 /\ none_valid seen
       | Some p =>
           exists e, first_valid_latest (m, e) seen
                     /\ start_ts p = JInt m /\ end_ts p = JInt e
       end.

(** A name made of the letters A-Z and underscores, as the keys of the
    colour table are. *)
Fixpoint table_key (s : string) : bool :=
  match s with
  | EmptyString => true
  | String c r => (Str.is_upper c || Ascii.eqb c "_") && table_key r
  end.

(** The columns of the exported table, in order. *)
Definition csv_header : list string :=
  [ "Field_ID"; "Area_sqm"; "ALU_Type"; "Class_Confidence"; "Season_Start";
    "Season_End"; "Primary_Crop"; "Primary_Confidence"; "Secondary_Crop";
    "Secondary_Confidence"; "Tertiary_Crop"; "Tertiary_Confidence" ].

(** The area of a feature when it is an int, 0 when it is absent. *)
Definition area_of (feature : json) : Z :=
  match field "area_sq_m" (properties_of feature) with
  | Some (JInt a) => a
  | _ => 0
  end.

Definition int_area (feature : json) : bool :=
  match field "area_sq_m" (properties_of feature) with
  | Some (JInt _) | None => true
  | Some _ => false
  end.

Definition is_folium (w : widget) : bool :=
  match w with
  | StFolium _ => true
  | _ => false
  end.

(** [str.upper] of the runtime maps what it has raised to itself and leaves
    spaces and underscores where they are, as Unicode's case mapping does. *)
Definition upper_stable (R : Runtime) : Prop :=
  forall s,
    py_upper R (py_upper R s) = py_upper R s
    /\ py_upper R (Str.replace " " "_" s) = Str.replace " " "_" (py_upper R s).

(** A step that sends no request. *)
Definition silent {A : Type} (c : script A) : Prop :=
  forall p, sent (fst (c p)) = sent p.

(** The sessions a visitor can get to: the session of a new visitor, and
    the session a run of the page leaves, whatever the inputs of that run
    and whatever the libraries and the endpoint answer in it. *)
Inductive reachable : session_state -> Prop :=
| reachable_initial : reachable initial_session
| reachable_run (R : Runtime) (i : inputs) (s : session_state) :
    reachable s -> reachable (session (fst (run R i s))).

(** With a period stored, the features of the stored collection, when they
    can be read and iterated, are not empty. *)
Definition features_seen (s : session_state) : Prop :=
  has_period (latest_period s) = true ->
  forall features fs,
    get (geojson_data s) "features" (JList []) = Ok features ->
    iter features = Ok fs ->
    truthy features = true.

End Monitor.

(** ** Worked examples: a runtime and some collections *)

Module Examples.

Import Monitor.
Open Scope py_scope.

(** [format(v, ".2f")] and [format(v, ".2%")] of an int. *)
Definition format_int (v : json) (spec : string) : py string :=
  match as_num v with
  | Some (NInt z) =>
      if String.eqb spec ".2%" then Ok (Str.of_Z (100 * z) ++ ".00%")
      else Ok (Str.of_Z z ++ ".00")
  | _ => Raise (Exn TypeError ("unsupported format string passed to "
                               ++ type_name v ++ ".__format__"))
  end.

Definition add_int (a b : json) : py json :=
  match as_num a, as_num b with
  | Some (NInt x), Some (NInt y) => Ok (JInt (x + y))
  | _, _ => Raise (not_supported "+" a b)
  end.

(** [a / b] of two ints, exact when the quotient is an integer and cut to 53
    binary places otherwise. *)
Definition truediv_int (a b : json) : py json :=
  match as_num a, as_num b with
  | Some (NInt x), Some (NInt y) =>
      if y =? 0 then Raise (Exn ZeroDivisionError "division by zero")
      else if x mod y =? 0 then Ok (JFloat (FFinite (x / y) 0))
      else Ok (JFloat (FFinite (x * 2 ^ 53 / y) (-53)))
  | _, _ => Raise (not_supported "/" a b)
  end.

(** A stand-in for the text of a value that is neither an int nor a string. *)
Definition type_tag (v : json) : string := "<" ++ type_name v ++ ">".

Definition cell_text (v : json) : string :=
  match v with
  | JInt z => Str.of_Z z
  | JStr s => s
  | _ => type_tag v
  end.

Definition csv_line (r : row) : string :=
  String.concat "," (map (fun cell => cell_text (snd cell)) r)
  ++ String (ascii_of_nat 10) EmptyString.

(** folium reads the type of what it is given. *)
Definition needs_type (feature : json) : py unit :=
  match assoc "type" (match feature with JDict d => d | _ => [] end) with
  | Some _ => Ok tt
  | None => Raise (Exn KeyError "'type'")
  end.

(** A runtime for collections whose numbers are ints and whose texts have no
    cased letter and no digit outside ASCII: Indian Standard Time, an
    endpoint that gives [reply] to every request, a decoder that gives
    [decoded] for every text, a fixed map centre, and the default limit on
    the digits of a literal. *)
Definition runtime (reply : string + json) (decoded : py json) : Runtime :=
  {| utc_offset := fun _ => 19800;
     repr := type_tag;
     format := format_int;
     add := add_int;
     truediv := truediv_int;
     json_loads := fun _ => decoded;
     json_dumps := type_tag;
     to_csv := fun rows =>
       match rows with
       | [] => csv_line []
       | r :: _ =>
           csv_line (map (fun cell => (fst cell, JStr (fst cell))) r)
           ++ String.concat "" (map csv_line rows)
       end;
     requests_post := fun _ => reply;
     cell_center := fun _ => Ok (FFinite 43 (-1), FFinite 79 0);
     upper_unicode := Str.upper;
     int_unicode := fun _ => None;
     int_max_str_digits := 4300;
     folium_geojson := needs_type |}.

Definition prediction (start_ts end_ts : Z) (crop : string) : json :=
  JDict [ ("start_timestamp_sec", JInt start_ts);
          ("end_timestamp_sec", JInt end_ts);
          ("crop_prediction", JDict [("crop_1", JStr crop); ("conf_1", JInt 1)]) ].

Definition square : json :=
  JDict [ ("type", JStr "Polygon");
          ("coordinates",
           JList [JList [ JList [JInt 79; JInt 21]; JList [JInt 80; JInt 21];
                          JList [JInt 80; JInt 22]; JList [JInt 79; JInt 22];
                          JList [JInt 79; JInt 21] ]]) ].

Definition feature (id : string) (predictions : list json) : json :=
  JDict [ ("type", JStr "Feature");
          ("id", JStr id);
          ("geometry", square);
          ("properties", JDict [ ("area_sq_m", JInt 1200);
                                 ("monitoring_prediction", JList predictions) ]) ].

Definition collection (features : list json) : json :=
  JDict [ ("type", JStr "FeatureCollection"); ("features", JList features) ].

(** 1 Jun 2023, 1 Oct 2023, 1 Nov 2023 and 1 Mar 2024, 00:00 UTC. *)
Definition kharif_2023 : json := prediction 1685577600 1696118400 "RICE".
Definition rabi_2023 : json := prediction 1698796800 1709251200 "WHEAT".

(** A prediction that names a crop and carries no timestamps. *)
Definition undated : json :=
  JDict [ ("crop_prediction", JDict [("crop_1", JStr "WHEAT")]) ].

Definition two_fields : json :=
  collection [ feature "field-1" [rabi_2023; kharif_2023]; feature "field-2" [kharif_2023] ].

(** The envelope of a response whose embedded collection is [text]. *)
Definition envelope (text : string) : json :=
  JDict [ ("monitoredLandscape", JDict [("geojson", JStr text)]) ].

Definition clicked (key : option string) : inputs :=
  {| API_KEY_AGRI := key; s2_cell_id := "3486736072451293184"; fetch_button := true |}.

Definition decode_error : exn :=
  Exn JSONDecodeError "Expecting value: line 1 column 1 (char 0)".

(** The endpoint refuses the key. *)
Definition forbidden : Runtime :=
  runtime (inl "403 Client Error: Forbidden for url: https://agriculturalunderstanding.googleapis.com/v1:monitorLandscape?key=secret")
          (Raise decode_error).

(** The endpoint answers with an embedded payload that is no JSON. *)
Definition garbled : Runtime :=
  runtime (inr (envelope "not json")) (Raise decode_error).

(** The endpoint answers without an embedded payload; the default text
    decodes to an empty object. *)
Definition without_payload : Runtime :=
  runtime (inr (JDict [("monitoredLandscape", JDict [])])) (Ok (JDict [])).

(** The endpoint answers with a payload that is JSON and no collection. *)
Definition listing : Runtime :=
  runtime (inr (envelope "[1]")) (Ok (JList [JInt 1])).

(** The endpoint answers with the collection [geojson]. *)
Definition answering (geojson : json) : Runtime :=
  runtime (inr (envelope "(the collection)")) (Ok geojson).

(** The endpoint answers with [geojson]; s2sphere rejects every cell. *)
Definition off_grid (geojson : json) : Runtime :=
  {| utc_offset := utc_offset (answering geojson);
     repr := repr (answering geojson);
     format := format (answering geojson);
     add := add (answering geojson);
     truediv := truediv (answering geojson);
     json_loads := json_loads (answering geojson);
     json_dumps := json_dumps (answering geojson);
     to_csv := to_csv (answering geojson);
     requests_post := requests_post (answering geojson);
     cell_center := fun _ => Raise (Exn OverflowError "cell id out of range");
     upper_unicode := upper_unicode (answering geojson);
     int_unicode := int_unicode (answering geojson);
     int_max_str_digits := int_max_str_digits (answering geojson);
     folium_geojson := folium_geojson (answering geojson) |}.

(** A prediction whose primary crop is null. *)
Definition unnamed_crop : json :=
  JDict [ ("start_timestamp_sec", JInt 1685577600);
          ("end_timestamp_sec", JInt 1696118400);
          ("crop_prediction", JDict [("crop_1", JNull)]) ].

(** A prediction whose start is written as text. *)
Definition text_start : json :=
  JDict [ ("start_timestamp_sec", JStr "1685577600");
          ("end_timestamp_sec", JInt 1696118400) ].

(** A run that follows no click, with [cell] in the text input. *)
Definition idle (cell : string) : inputs :=
  {| API_KEY_AGRI := Some "secret"; s2_cell_id := cell; fetch_button := false |}.

(** The session after an earlier fetch of [two_fields]. *)
Definition earlier : session_state :=
  {| geojson_data := two_fields;
     latest_period := Some {| period_key := "1698796800_1709251200";
                              label := "November 2023 - March 2024";
                              start_ts := JInt 1698796800;
                              end_ts := JInt 1709251200 |};
     raw_response := envelope "(the earlier collection)" |}.

End Examples.

(** ** Properties *)

Module Properties.

Import Monitor.
Open Scope py_scope.

(** *** Crop colours *)

Lemma upper_char_idempotent (c : ascii) :
  Str.upper_char (Str.upper_char c) = Str.upper_char c.
Proof. destruct c as [[] [] [] [] [] [] [] []]; reflexivity. Qed.

Lemma upper_idempotent (s : string) : Str.upper (Str.upper s) = Str.upper s.
Proof.
  induction s as [|c s IH]; [reflexivity|]. cbn [Str.upper].
  now rewrite upper_char_idempotent, IH.
Qed.

Lemma upper_replace (s : string) :
  Str.upper (Str.replace " " "_" s) = Str.replace " " "_" (Str.upper s).
Proof.
  induction s as [|c s IH]; [reflexivity|]. cbn [Str.upper Str.replace].
  rewrite IH. f_equal. destruct c as [[] [] [] [] [] [] [] []]; reflexivity.
Qed.

Lemma replace_idempotent (s : string) :
  Str.replace " " "_" (Str.replace " " "_" s) = Str.replace " " "_" s.
Proof.
  induction s as [|c s IH]; [reflexivity|]. cbn [Str.replace].
  rewrite IH. f_equal. destruct c as [[] [] [] [] [] [] [] []]; reflexivity.
Qed.

Lemma is_ascii_upper (s : string) : Str.is_ascii (Str.upper s) = Str.is_ascii s.
Proof.
  induction s as [|c s IH]; [reflexivity|]. cbn [Str.upper Str.is_ascii].
  rewrite IH. f_equal. destruct c as [[] [] [] [] [] [] [] []]; reflexivity.
Qed.

Lemma is_ascii_replace (s : string) :
  Str.is_ascii (Str.replace " " "_" s) = Str.is_ascii s.
Proof.
  induction s as [|c s IH]; [reflexivity|]. cbn [Str.replace Str.is_ascii].
  rewrite IH. f_equal. destruct c as [[] [] [] [] [] [] [] []]; reflexivity.
Qed.

Section Colours.

Context (R : Runtime).

Lemma py_upper_ascii (s : string) :
  Str.is_ascii s = true -> py_upper R s = Str.upper s.
Proof. unfold py_upper. now intros ->. Qed.

(** On ASCII text [str.upper] is stable whatever the runtime is. *)
Lemma upper_stable_ascii (s : string) :
  Str.is_ascii s = true ->
  py_upper R (py_upper R s) = py_upper R s
  /\ py_upper R (Str.replace " " "_" s) = Str.replace " " "_" (py_upper R s).
Proof.
  intros Hs. rewrite (py_upper_ascii s Hs).
  rewrite !py_upper_ascii by (now rewrite ?is_ascii_upper, ?is_ascii_replace).
  split; [apply upper_idempotent|apply upper_replace].
Qed.

Lemma upper_stable_at (s : string) :
  Str.is_ascii s = true \/ upper_stable R ->
  py_upper R (py_upper R s) = py_upper R s
  /\ py_upper R (Str.replace " " "_" s) = Str.replace " " "_" (py_upper R s)
  /\ py_upper R (Str.replace " " "_" (py_upper R s))
     = Str.replace " " "_" (py_upper R (py_upper R s)).
Proof.
  intros [Hs|Hstable].
  - destruct (upper_stable_ascii s Hs) as [Hidem Hcomm].
    repeat split; auto. apply upper_stable_ascii.
    now rewrite (py_upper_ascii s Hs), is_ascii_upper.
  - repeat split; apply Hstable.
Qed.

Lemma normalize_idempotent (s : string) :
  Str.is_ascii s = true \/ upper_stable R ->
  normalize R (normalize R s) = normalize R s.
Proof.
  intros H. destruct (upper_stable_at s H) as (Hidem & _ & Hcomm).
  unfold normalize. now rewrite Hcomm, Hidem, replace_idempotent.
Qed.

(** C7. The colour of a crop name is the colour looked up for the name
    uppercased with its spaces replaced by underscores, and the fallback
    colour #666666 when that normal form is not in the table. For every
    ASCII name, and for every name under a runtime whose [str.upper] is
    stable as Unicode's is, the lookup ignores case and takes a space for an
    underscore: the name, its normal form, its uppercase form and the name
    with underscores for spaces all get one colour, and so do two names
    with the same uppercase form. "corn", "Corn" and "CORN" get the colour
    of CORN, "no prediction" the colour of NO_PREDICTION. *)
Theorem get_crop_color_normalizes (crop_name : string) :
  Str.is_ascii crop_name = true \/ upper_stable R ->
  get_crop_color R (JStr crop_name) = get_crop_color R (JStr (normalize R crop_name))
  /\ get_crop_color R (JStr crop_name)
     = Ok (match lookup (normalize R crop_name) CROP_COLORS with
           | Some color => color
           | None => "#666666"
           end)
  /\ (forall other,
         py_upper R other = py_upper R crop_name ->
         get_crop_color R (JStr other) = get_crop_color R (JStr crop_name))
  /\ get_crop_color R (JStr (py_upper R crop_name)) = get_crop_color R (JStr crop_name)
  /\ get_crop_color R (JStr (Str.replace " " "_" crop_name))
     = get_crop_color R (JStr crop_name)
  /\ get_crop_color R (JStr "corn") = get_crop_color R (JStr "CORN")
  /\ get_crop_color R (JStr "Corn") = get_crop_color R (JStr "CORN")
  /\ get_crop_color R (JStr "CORN") = Ok "#FFD700"
  /\ get_crop_color R (JStr "no prediction") = Ok "#CCCCCC"
  /\ get_crop_color R (JStr "Unknown crop") = Ok "#999999"
  /\ get_crop_color R (JStr "pearl millet") = Ok "#666666".
Proof.
  intros H. destruct (upper_stable_at crop_name H) as (Hidem & Hcomm & _).
  unfold get_crop_color. repeat split; try reflexivity.
  - now rewrite normalize_idempotent.
  - intros other Hother. unfold normalize. now rewrite Hother.
  - unfold normalize. now rewrite Hidem.
  - unfold normalize. now rewrite Hcomm, replace_idempotent.
Qed.

End Colours.

(** *** Well-formed collections, unfolded *)

Section WellFormed.

Context (R : Runtime).

Lemma gt_int (a b : Z) : gt (JInt a) (JInt b) = Ok (a >? b).
Proof. reflexivity. Qed.

Lemma strftime_representable (t : Z) :
  representable R t = true ->
  strftime_month_year R (JInt t) = Ok (month_year R t).
Proof.
  unfold representable, strftime_month_year, month_year.
  cbn [as_num Calendar.whole_seconds Py.bind].
  destruct (Calendar.civil_from_days _) as [y m]. now intros ->.
Qed.

Lemma timestamp_label (t : Z) :
  is_timestamp R (JInt t) = true ->
  timestamp_to_month_year R (JInt t)
  = Ok (if 0 <? t then month_year R t else "N/A").
Proof.
  unfold timestamp_to_month_year, is_timestamp. simpl truthy. rewrite gt_int. simpl.
  intros H. destruct (Z.eqb_spec t 0) as [->|Hne]; [reflexivity|]. simpl.
  rewrite Z.gtb_ltb. destruct (Z.ltb_spec 0 t) as [Hpos|Hneg]; [|reflexivity].
  apply strftime_representable.
  destruct (Z.leb_spec t 0); [lia|exact H].
Qed.

Lemma timestamp_value (key : string) (d : list (string * json)) :
  absent_or (is_timestamp R) key d = true ->
  get (JDict d) key (JInt 0) = Ok (JInt (timestamp_of key (JDict d)))
  /\ is_timestamp R (JInt (timestamp_of key (JDict d))) = true.
Proof.
  unfold absent_or, get, timestamp_of, field, entries.
  destruct (assoc key d) as [[| | t | | | |]|]; try discriminate; auto.
Qed.

Lemma wf_prediction_dict (pred : json) :
  wf_prediction R pred = true ->
  exists d, pred = JDict d
    /\ absent_or (is_timestamp R) "start_timestamp_sec" d = true
    /\ absent_or (is_timestamp R) "end_timestamp_sec" d = true
    /\ absent_or is_dict "crop_prediction" d = true.
Proof.
  destruct pred; try discriminate. simpl.
  rewrite !andb_true_iff. intros [[H1 H2] H3]. eauto.
Qed.

Lemma wf_feature_predictions (feature : json) :
  wf_feature R feature = true ->
  is_dict feature = true
  /\ is_dict (properties_of feature) = true
  /\ get feature "properties" (JDict []) = Ok (properties_of feature)
  /\ get (properties_of feature) "monitoring_prediction" (JList [])
     = Ok (JList (predictions_of feature))
  /\ forallb (wf_prediction R) (predictions_of feature) = true.
Proof.
  destruct feature as [| | | | | |d]; try discriminate.
  unfold wf_feature, absent_or, predictions_of, properties_of, field_or, field, entries, get.
  destruct (assoc "properties" d) as [props|]; [|repeat split; reflexivity].
  destruct props as [| | | | | |pd]; try discriminate.
  unfold wf_properties, absent_or, get.
  destruct (assoc "monitoring_prediction" pd) as [preds|]; [|repeat split; reflexivity].
  destruct preds; try discriminate. simpl. auto.
Qed.

Lemma wf_collection_features (geojson : json) :
  wf_collection R geojson = true ->
  get geojson "features" (JList []) = Ok (JList (features_of geojson))
  /\ forallb (wf_feature R) (features_of geojson) = true.
Proof.
  destruct geojson as [| | | | | |d]; try discriminate.
  unfold wf_collection, absent_or, features_of, field_or, field, entries, get.
  destruct (assoc "features" d) as [fs|]; [|split; reflexivity].
  destruct fs; try discriminate. simpl. auto.
Qed.

(** A loop whose body keeps an invariant on the elements seen so far. *)
Lemma foldM_invariant {A B C : Type} (f : A -> B -> py A) (ok : B -> bool)
      (view : B -> list C) (P : list C -> A -> Prop) :
  (forall seen a x, ok x = true -> P seen a ->
     exists a', f a x = Ok a' /\ P (seen ++ view x)%list a') ->
  forall l seen a, forallb ok l = true -> P seen a ->
    exists a', foldM f l a = Ok a' /\ P (seen ++ flat_map view l)%list a'.
Proof.
  intros Hstep. induction l as [|x l IH]; intros seen a Hok HP; simpl.
  - exists a. now rewrite app_nil_r.
  - apply andb_true_iff in Hok as [Hx Hl].
    destruct (Hstep seen a x Hx HP) as (a' & -> & HP'). simpl.
    destruct (IH _ a' Hl HP') as (a'' & Hrun & HP'').
    exists a''. split; [exact Hrun|]. now rewrite app_assoc.
Qed.

Lemma flat_map_singleton {A B : Type} (f : A -> B) (l : list A) :
  flat_map (fun x => [f x]) l = map f l.
Proof. induction l; simpl; congruence. Qed.

End WellFormed.

(** *** The time-period selector *)

Section Selector.

Context (R : Runtime).

Lemma latest_of_more (seen : list (Z * Z)) (ts : Z * Z) (p : period) (m : Z) :
  latest_of R seen p -> start_ts p = JInt m ->
  (valid ts -> fst ts <= m) ->
  latest_of R (seen ++ [ts]) p.
Proof.
  intros (s & e & Hin & Hvalid & Hmax & Hs & He & Hl & Hk) Hm Hts.
  assert (s = m) by congruence. subst m.
  exists s, e. repeat split; auto; try apply Hvalid.
  - apply in_or_app. now left.
  - intros ts' Hin' Hv'. apply in_app_or in Hin' as [Hold|[<-|[]]]; auto.
Qed.

Lemma scan_prediction_scanned (seen : list (Z * Z)) (acc : option period * json)
      (pred : json) :
  wf_prediction R pred = true -> scanned R seen acc ->
  exists acc', scan_prediction R acc pred = Ok acc'
               /\ scanned R (seen ++ [timestamps_of pred]) acc'.
Proof.
  intros Hwf (m & Hm & Hacc).
  destruct (wf_prediction_dict R pred Hwf) as (d & -> & Hstart & Hend & _).
  destruct (timestamp_value R _ _ Hstart) as [Hs Hs'].
  destruct (timestamp_value R _ _ Hend) as [He He'].
  unfold scan_prediction, timestamps_of. rewrite Hs, He, Hm.
  set (s := timestamp_of "start_timestamp_sec" (JDict d)) in *.
  set (e := timestamp_of "end_timestamp_sec" (JDict d)) in *.
  cbn [Py.bind]. rewrite !gt_int, !Z.gtb_ltb.
  destruct (Z.ltb_spec m s) as [Hlater|Hlater]; cbn [Py.bind];
    [destruct (Z.ltb_spec 0 s) as [Hspos|Hspos]; cbn [Py.bind];
     [destruct (Z.ltb_spec 0 e) as [Hepos|Hepos]; cbn [Py.bind]| ]| ].
  - (* a later valid prediction: it becomes the latest period *)
    rewrite (timestamp_label R s Hs'), (timestamp_label R e He').
    destruct (Z.ltb_spec 0 s); [|lia]. destruct (Z.ltb_spec 0 e); [|lia].
    cbn [Py.bind]. eexists. split; [reflexivity|].
    exists s. split; [reflexivity|]. cbn [fst]. split; [|reflexivity].
    exists s, e. cbn [start_ts end_ts label period_key].
    repeat split; auto.
    + apply in_or_app. right. now left.
    + intros ts Hin Hv. apply in_app_or in Hin as [Hold|[<-|[]]]; [|cbn; lia].
      destruct acc as [[p|] mx]; cbn [fst snd] in *.
      * destruct Hacc as [(s0 & e0 & _ & _ & Hmax & Hs0 & _) Hpm].
        assert (s0 = m) by congruence. specialize (Hmax ts Hold Hv). lia.
      * destruct Hacc as [_ Hnone]. now destruct (Hnone ts Hold).
  - (* the end is not positive *)
    exists acc. split; [reflexivity|]. exists m. split; [exact Hm|].
    destruct (fst acc) as [p|].
    + destruct Hacc as [Hp Hpm]. split; [|exact Hpm].
      apply latest_of_more with (m := m); auto. intros [_ Hv]. cbn in Hv. lia.
    + destruct Hacc as [-> Hnone]. split; [reflexivity|].
      intros ts Hin. apply in_app_or in Hin as [Hold|[<-|[]]]; auto.
      intros [_ Hv]. cbn in Hv. lia.
  - (* the start is not positive *)
    exists acc. split; [reflexivity|]. exists m. split; [exact Hm|].
    destruct (fst acc) as [p|].
    + destruct Hacc as [Hp Hpm]. split; [|exact Hpm].
      apply latest_of_more with (m := m); auto. intros [Hv _]. cbn in Hv. lia.
    + destruct Hacc as [-> Hnone]. split; [reflexivity|].
      intros ts Hin. apply in_app_or in Hin as [Hold|[<-|[]]]; auto.
      intros [Hv _]. cbn in Hv. lia.
  - (* the start does not exceed the maximum *)
    exists acc. split; [reflexivity|]. exists m. split; [exact Hm|].
    destruct (fst acc) as [p|].
    + destruct Hacc as [Hp Hpm]. split; [|exact Hpm].
      apply latest_of_more with (m := m); auto.
    + destruct Hacc as [-> Hnone]. split; [reflexivity|].
      intros ts Hin. apply in_app_or in Hin as [Hold|[<-|[]]]; auto.
      intros [Hv _]. cbn in Hv. lia.
Qed.

Lemma scan_feature_scanned (seen : list (Z * Z)) (acc : option period * json)
      (feature : json) :
  wf_feature R feature = true -> scanned R seen acc ->
  exists acc', scan_feature R acc feature = Ok acc'
               /\ scanned R (seen ++ map timestamps_of (predictions_of feature)) acc'.
Proof.
  intros Hwf Hacc.
  destruct (wf_feature_predictions R feature Hwf) as (_ & _ & Hprops & Hpreds & Hall).
  unfold scan_feature. rewrite Hprops. cbn [Py.bind]. rewrite Hpreds. cbn [Py.bind iter].
  rewrite <- flat_map_singleton.
  apply (foldM_invariant (scan_prediction R) (wf_prediction R)
           (fun pred => [timestamps_of pred]) (scanned R)); auto.
  intros. now apply scan_prediction_scanned.
Qed.

Lemma scanned_start : scanned R [] (None, JInt 0).
Proof. exists 0. repeat split. intros ts []. Qed.

Lemma latest_of_valid (seen : list (Z * Z)) (p : period) :
  latest_of R seen p -> ~ none_valid seen.
Proof. intros (s & e & Hin & Hv & _) Hnone. exact (Hnone _ Hin Hv). Qed.

(** C1. On every list of well-formed features the selector returns: the
    period of a prediction that is valid (start and end strictly positive)
    and whose start no valid prediction of any feature exceeds, with the
    month-year label of its start and end and the two timestamps; and null
    exactly when no prediction of any feature is valid. *)
Theorem get_latest_time_period_selects (features : list json) :
  forallb (wf_feature R) features = true ->
  exists result,
    get_latest_time_period R (JList features) = Ok result
    /\ match result with
       | Some p => latest_of R (all_timestamps features) p
       | None => none_valid (all_timestamps features)
       end
    /\ (result = None <-> none_valid (all_timestamps features)).
Proof.
  intros Hwf. unfold get_latest_time_period. cbn [iter Py.bind].
  destruct (foldM_invariant (scan_feature R) (wf_feature R)
              (fun f => map timestamps_of (predictions_of f)) (scanned R)
              (fun seen a x Hx Ha => scan_feature_scanned seen a x Hx Ha)
              features [] (None, JInt 0) Hwf scanned_start)
    as ([result mx] & -> & m & _ & Hresult).
  cbn [Py.bind fst app] in *. fold (all_timestamps features) in Hresult.
  exists result. split; [reflexivity|].
  destruct result as [p|].
  - destruct Hresult as [Hp _]. split; [exact Hp|].
    split; [discriminate|]. intros Hnone. now destruct (latest_of_valid _ _ Hp).
  - destruct Hresult as [_ Hnone]. repeat split; auto.
Qed.

End Selector.

(** *** The exported table *)

Section Table.

Context (R : Runtime).

Lemma foldM_append {A B : Type} (f : A -> py B) (l : list A) (done : list B) :
  foldM (fun rows x => r <- f x ;; Ok (rows ++ [r])%list) l done
  = (rs <- mapM f l ;; Ok (done ++ rs)%list).
Proof.
  revert done. induction l as [|x l IH]; intros done; simpl.
  - now rewrite app_nil_r.
  - destruct (f x) as [r|e]; simpl; [|reflexivity].
    rewrite IH. destruct (mapM f l); simpl; [|reflexivity].
    now rewrite <- app_assoc.
Qed.

Lemma mapM_Forall2 {A B : Type} (f : A -> py B) (ok : A -> bool) (l : list A) :
  (forall x, ok x = true -> exists y, f x = Ok y) ->
  forallb ok l = true ->
  exists ys, mapM f l = Ok ys /\ Forall2 (fun x y => f x = Ok y) l ys.
Proof.
  intros Hf. induction l as [|x l IH]; simpl; intros Hok.
  - exists []. split; [reflexivity|constructor].
  - apply andb_true_iff in Hok as [Hx Hl].
    destruct (Hf x Hx) as (y & Hy). destruct (IH Hl) as (ys & Hys & Hall).
    exists (y :: ys). rewrite Hy, Hys. split; [reflexivity|now constructor].
Qed.

Lemma Forall2_pairs {A B C : Type} (a : A) (P : A * B -> C -> Prop)
      (l : list B) (rs : list C) :
  Forall2 (fun x r => P (a, x) r) l rs -> Forall2 P (map (pair a) l) rs.
Proof. induction 1; simpl; constructor; auto. Qed.

Lemma Forall2_weaken_in {A B : Type} (P Q : A -> B -> Prop) (l : list A) (rs : list B) :
  Forall2 P l rs ->
  (forall x r, In x l -> P x r -> Q x r) ->
  Forall2 Q l rs.
Proof.
  induction 1 as [|x r l rs Hx Hrest IH]; intros Himp; constructor.
  - apply Himp; [now left|exact Hx].
  - apply IH. intros x' r' Hin. apply Himp. now right.
Qed.

Lemma csv_row_returns (feature pred : json) :
  is_dict feature = true -> is_dict (properties_of feature) = true ->
  wf_prediction R pred = true ->
  exists r, row_of R (feature, pred) r.
Proof.
  intros Hf Hp Hwf. unfold row_of. cbn [fst snd].
  destruct (wf_prediction_dict R pred Hwf) as (d & -> & Hstart & Hend & Hcrop).
  destruct (timestamp_value R _ _ Hstart) as [Hs Hs'].
  destruct (timestamp_value R _ _ Hend) as [He He'].
  destruct feature as [| | | | | |fd]; try discriminate.
  destruct (properties_of (JDict fd)) as [| | | | | |pd]; try discriminate.
  unfold csv_row. rewrite Hs, He.
  assert (Hc : exists cd, get (JDict d) "crop_prediction" (JDict []) = Ok (JDict cd)).
  { unfold get. unfold absent_or in Hcrop.
    destruct (assoc "crop_prediction" d) as [[| | | | | |cd]|]; try discriminate; eauto. }
  destruct Hc as (cd & ->).
  cbn [Py.bind get]. rewrite (timestamp_label R _ Hs'), (timestamp_label R _ He').
  cbn [Py.bind]. eauto.
Qed.

Lemma csv_row_cells (pair : json * json) (r : row) :
  is_dict (fst pair) = true -> is_dict (properties_of (fst pair)) = true ->
  wf_prediction R (snd pair) = true ->
  row_of R pair r ->
  copies_fields pair r /\ formats_seasons R pair r.
Proof.
  destruct pair as [feature pred]. cbn [fst snd]. intros Hf Hp Hwf.
  destruct (wf_prediction_dict R pred Hwf) as (d & -> & Hstart & Hend & Hcrop).
  destruct (timestamp_value R _ _ Hstart) as [Hs Hs'].
  destruct (timestamp_value R _ _ Hend) as [He He'].
  destruct feature as [| | | | | |fd]; try discriminate.
  unfold row_of, copies_fields, formats_seasons, source_of, crop_prediction_of.
  cbn [fst snd].
  destruct (properties_of (JDict fd)) as [| | | | | |pd]; try discriminate.
  unfold csv_row. rewrite Hs, He.
  unfold field_or, field, entries.
  assert (Hc : exists cd,
             match assoc "crop_prediction" d with Some x => x | None => JDict [] end
             = JDict cd).
  { unfold absent_or in Hcrop.
    destruct (assoc "crop_prediction" d) as [[| | | | | |cd]|]; try discriminate; eauto. }
  destruct Hc as (cd & Hcd). cbn [get]. rewrite Hcd.
  cbn [Py.bind get]. rewrite (timestamp_label R _ Hs'), (timestamp_label R _ He').
  cbn [Py.bind]. intros [= <-]. split.
  - intros col src key default Hin.
    repeat (destruct Hin as [[= <- <- <- <-]|Hin]; [split; [auto|reflexivity]|]).
    destruct Hin.
  - intros col key Hin.
    destruct Hin as [[= <- <-]|[[= <- <-]|[]]]; cbn [assoc String.eqb Ascii.eqb Bool.eqb].
    + unfold timestamp_of, field, entries.
      destruct (assoc "start_timestamp_sec" d) as [[| | t | | | |]|]; reflexivity.
    + unfold timestamp_of, field, entries.
      destruct (assoc "end_timestamp_sec" d) as [[| | t | | | |]|]; reflexivity.
Qed.

Lemma feature_rows_appends (done : list row) (feature : json) :
  wf_feature R feature = true ->
  exists rs,
    feature_rows R done feature = Ok (done ++ rs)%list
    /\ Forall2 (row_of R) (map (pair feature) (predictions_of feature)) rs.
Proof.
  intros Hwf.
  destruct (wf_feature_predictions R feature Hwf) as (Hf & Hp & Hprops & Hpreds & Hall).
  unfold feature_rows. rewrite Hprops. cbn [Py.bind]. rewrite Hpreds. cbn [Py.bind iter].
  rewrite foldM_append.
  destruct (mapM_Forall2 (csv_row R feature (properties_of feature)) (wf_prediction R)
              (predictions_of feature)) as (rs & -> & Hrs); auto.
  { intros pred Hpred. exact (csv_row_returns feature pred Hf Hp Hpred). }
  exists rs. split; [reflexivity|]. now apply Forall2_pairs.
Qed.

(** On a well-formed collection the table has the row of every pair, in
    order. *)
Lemma prepare_csv_data_rows (geojson : json) :
  wf_collection R geojson = true ->
  exists rows,
    prepare_csv_data R geojson = Ok rows
    /\ Forall2 (row_of R) (pairs_of geojson) rows.
Proof.
  intros Hwf. destruct (wf_collection_features R geojson Hwf) as [Hget Hall].
  unfold prepare_csv_data. rewrite Hget. cbn [Py.bind iter].
  destruct (foldM_invariant (feature_rows R) (wf_feature R)
              (fun f => map (pair f) (predictions_of f))
              (fun seen rows => Forall2 (row_of R) seen rows))
    with (l := features_of geojson) (seen := @nil (json * json)) (a := @nil row)
    as (rows & Hrun & Hrows); auto.
  - intros seen done f Hf Hdone.
    destruct (feature_rows_appends done f Hf) as (rs & Hrs & Hnew).
    exists (done ++ rs)%list. split; [exact Hrs|]. now apply Forall2_app.
  - exists rows. split; [exact Hrun|exact Hrows].
Qed.

Lemma pairs_of_wf (geojson : json) (pair : json * json) :
  wf_collection R geojson = true -> In pair (pairs_of geojson) ->
  is_dict (fst pair) = true /\ is_dict (properties_of (fst pair)) = true
  /\ wf_prediction R (snd pair) = true.
Proof.
  intros Hwf Hin. destruct (wf_collection_features R geojson Hwf) as [_ Hall].
  unfold pairs_of in Hin. apply in_flat_map in Hin as (f & Hf & Hin).
  apply in_map_iff in Hin as (pred & <- & Hpred). cbn [fst snd].
  rewrite forallb_forall in Hall.
  destruct (wf_feature_predictions R f (Hall f Hf)) as (Hd & Hp & _ & _ & Hpreds).
  rewrite forallb_forall in Hpreds. auto.
Qed.

Lemma length_pairs_of (geojson : json) :
  List.length (pairs_of geojson)
  = list_sum (map (fun f => List.length (predictions_of f)) (features_of geojson)).
Proof.
  unfold pairs_of. induction (features_of geojson) as [|f fs IH]; simpl; [reflexivity|].
  now rewrite length_app, length_map, IH.
Qed.

(** C4. On every well-formed collection [prepare_csv_data] returns a table
    with exactly one row per (feature, prediction) pair, in order: its row
    count is the number of pairs, the sum over the features of the number
    of their predictions. *)
Theorem prepare_csv_data_row_count (geojson : json) :
  wf_collection R geojson = true ->
  exists rows,
    prepare_csv_data R geojson = Ok rows
    /\ Forall2 (row_of R) (pairs_of geojson) rows
    /\ List.length rows = List.length (pairs_of geojson)
    /\ List.length rows
       = list_sum (map (fun f => List.length (predictions_of f)) (features_of geojson)).
Proof.
  intros Hwf. destruct (prepare_csv_data_rows geojson Hwf) as (rows & Hrun & Hrows).
  exists rows. pose proof (Forall2_length Hrows) as Hlen.
  repeat split; auto. now rewrite <- Hlen, length_pairs_of.
Qed.

(** C9, amended. On every well-formed collection each row copies its ten
    plain columns from the pair unchanged, with an empty string (text
    columns) or a zero (numeric columns) for a missing field; the two season
    columns hold the month and year of the timestamp, and the text N/A, not
    an empty cell or a zero, when the timestamp is missing or not positive. *)
Theorem prepare_csv_data_defaults (geojson : json) :
  wf_collection R geojson = true ->
  exists rows,
    prepare_csv_data R geojson = Ok rows
    /\ Forall2 (fun pair r => copies_fields pair r /\ formats_seasons R pair r)
               (pairs_of geojson) rows.
Proof.
  intros Hwf. destruct (prepare_csv_data_rows geojson Hwf) as (rows & Hrun & Hrows).
  exists rows. split; [exact Hrun|].
  apply (Forall2_weaken_in _ _ _ _ Hrows). intros pair r Hin Hrow.
  destruct (pairs_of_wf geojson pair Hwf Hin) as (Hd & Hp & Hpred).
  now apply csv_row_cells.
Qed.

End Table.

(** *** The map *)

Section Map.

Context (R : Runtime).

Lemma mapM_Ok_Forall2 {A B : Type} (f : A -> py B) (l : list A) (ys : list B) :
  mapM f l = Ok ys -> Forall2 (fun x y => f x = Ok y) l ys.
Proof.
  revert ys. induction l as [|x l IH]; simpl; intros ys.
  - intros [= <-]. constructor.
  - destruct (f x) as [y|e] eqn:Hy; simpl; [|discriminate].
    destruct (mapM f l) as [ys'|e]; simpl; [|discriminate].
    intros [= <-]. constructor; auto.
Qed.

Lemma lacks_predictions_gets (feature : json) :
  lacks_predictions feature = true ->
  exists predictions,
    get feature "properties" (JDict []) = Ok (properties_of feature)
    /\ get (properties_of feature) "monitoring_prediction" (JList []) = Ok predictions
    /\ truthy predictions = false.
Proof.
  unfold lacks_predictions. rewrite !andb_true_iff, negb_true_iff.
  intros [[Hf Hp] Hempty].
  destruct feature as [| | | | | |fd]; try discriminate.
  destruct (properties_of (JDict fd)) as [| | | | | |pd] eqn:Hprops; try discriminate.
  eexists. repeat split; [|exact Hempty].
  unfold get. now rewrite <- Hprops.
Qed.

(** For a feature without predictions the loop body can fail in folium
    only, and otherwise gives the colour of NO_PREDICTION and the popup
    without data. *)
Lemma feature_overlay_no_predictions (feature : json) :
  lacks_predictions feature = true ->
  feature_overlay R feature
  = (_ <- folium_geojson R feature ;;
     Ok {| feature_of := feature; fill_color := "#CCCCCC"; popup_of := NoData |}).
Proof.
  intros Hlacks.
  destruct (lacks_predictions_gets feature Hlacks) as (preds & Hprops & Hpreds & Hempty).
  unfold feature_overlay, feature_crop_name, create_feature_popup.
  rewrite Hprops. cbn [Py.bind]. rewrite Hpreds. cbn [Py.bind]. rewrite Hempty.
  reflexivity.
Qed.

(** C3, amended. A feature whose prediction list is absent or empty gets
    the fallback colour #CCCCCC of NO_PREDICTION (and the popup without
    data): for such a feature the loop body of the renderer returns that
    overlay whenever folium takes the feature, and raises folium's exception
    otherwise; and in every map that [create_map] returns there is one
    overlay per feature, in order, with that colour for each such feature.
    The validity of timestamps plays no part in the colour. *)
Theorem create_map_no_prediction_color :
  (forall feature,
      lacks_predictions feature = true ->
      feature_overlay R feature
      = (_ <- folium_geojson R feature ;;
         Ok {| feature_of := feature; fill_color := "#CCCCCC"; popup_of := NoData |}))
  /\ (forall geojson cell_id_input use_latest messages m,
         create_map R geojson cell_id_input use_latest = (messages, Ok (Some m)) ->
         exists fs,
           (features <- get geojson "features" (JList []) ;; iter features) = Ok fs
           /\ Forall2 (fun f o =>
                         feature_overlay R f = Ok o
                         /\ (lacks_predictions f = true ->
                             fill_color o = "#CCCCCC" /\ popup_of o = NoData))
                      fs (overlays m)).
Proof.
  split; [exact feature_overlay_no_predictions|].
  intros geojson cell_id_input use_latest messages m.
  unfold create_map, ubind, lift, emit, uret.
  destruct (get geojson "features" (JList [])) as [features|e]; [|discriminate].
  cbn [Py.bind]. destruct (truthy features); cbn [negb]; [|discriminate].
  destruct (map_center R cell_id_input) as [center|msg]; [|discriminate].
  destruct (iter features) as [fs|e]; [|discriminate].
  destruct (mapM (feature_overlay R) fs) as [added|e] eqn:Hadded; [|discriminate].
  intros [= _ <-]. exists fs. split; [reflexivity|]. cbn [overlays].
  apply mapM_Ok_Forall2 in Hadded.
  induction Hadded as [|f o fs added Ho _ IH]; constructor; auto.
  split; [exact Ho|]. intros Hlacks.
  rewrite (feature_overlay_no_predictions f Hlacks) in Ho.
  destruct (folium_geojson R f); [|discriminate].
  injection Ho as <-. split; reflexivity.
Qed.

(** C6. For every cell identifier that [int] rejects, [create_map], given a
    collection object that has features (the page calls it with no other),
    reports the invalid-identifier error and returns no map, and raises
    nothing: the features are not looked at and the cell library is not
    called. *)
Theorem create_map_invalid_cell (geojson : json) (cell_id_input : string)
        (use_latest : bool) :
  is_dict geojson = true ->
  truthy (field_or "features" (JList []) geojson) = true ->
  py_int R cell_id_input = None ->
  create_map R geojson cell_id_input use_latest
  = ([StError "Invalid S2 Cell ID format. Please ensure it is a numeric ID."], Ok None).
Proof.
  intros Hdict Hfeatures Hint. destruct geojson as [| | | | | |d]; try discriminate.
  unfold create_map, ubind, lift, emit, uret, map_center, get.
  unfold field_or, field, entries in Hfeatures.
  rewrite Hint. cbn [Py.bind]. now rewrite Hfeatures.
Qed.

End Map.

(** *** The script *)

Section Script.

Context (R : Runtime).

Lemma quiet_sret {A : Type} (a : A) : quiet (sret a).
Proof. intros p. repeat split. exists []. now rewrite app_nil_r. Qed.

Lemma quiet_eval {A : Type} (c : py A) : quiet (eval c).
Proof. intros p. repeat split. exists []. now rewrite app_nil_r. Qed.

Lemma quiet_read : quiet read.
Proof. intros p. repeat split. exists []. now rewrite app_nil_r. Qed.

Lemma quiet_show (w : widget) : quiet (show w).
Proof. intros p. repeat split. now exists [w]. Qed.

Lemma quiet_run_ui {A : Type} (c : ui A) : quiet (run_ui c).
Proof. intros p. repeat split. now exists (fst c). Qed.

Lemma quiet_sbind {A B : Type} (c : script A) (k : A -> script B) :
  quiet c -> (forall a, quiet (k a)) -> quiet (sbind c k).
Proof.
  intros Hc Hk p. unfold sbind. destruct (Hc p) as (Hsent & Hsession & more & Hshown).
  destruct (c p) as [p' [a|e]]; cbn [fst] in *.
  - destruct (Hk a p') as (Hsent' & Hsession' & more' & Hshown').
    repeat split; try congruence.
    exists (more ++ more')%list. now rewrite Hshown', Hshown, app_assoc.
  - repeat split; auto. now exists more.
Qed.

Create HintDb quiet.
#[local] Hint Resolve quiet_sret quiet_eval quiet_read quiet_show quiet_run_ui : quiet.

Ltac quiet_steps :=
  repeat first
    [ apply quiet_sbind; [|intros ?]
    | solve [auto with quiet]
    | match goal with |- quiet (match ?x with _ => _ end) => destruct x end ].

Lemma quiet_display_data (i : inputs) (s : session_state) : quiet (display_data R i s).
Proof. unfold display_data. quiet_steps. Qed.

Lemma quiet_display (i : inputs) : quiet (display R i).
Proof.
  unfold display. apply quiet_sbind; [apply quiet_read|]. intros s.
  destruct (_ && _); [apply quiet_display_data|apply quiet_show].
Qed.

(** The handler without a key: one error, nothing else. *)
Lemma fetch_handler_without_key (i : inputs) (p : page) :
  fetch_button i = true -> api_key i = "" ->
  fetch_handler R i p
  = ({| session := session p;
        shown := (shown p ++ [StError "Please enter an API key."])%list;
        sent := sent p |}, Ok tt).
Proof. unfold fetch_handler. now intros -> ->. Qed.

(** C5. When the credential is absent or empty, a click on Fetch sends no
    request: the handler shows the configuration error and does nothing
    else, and the whole run of the page sends nothing and leaves the session
    as it was. *)
Theorem no_key_no_request (i : inputs) (s : session_state) :
  fetch_button i = true ->
  API_KEY_AGRI i = None \/ API_KEY_AGRI i = Some "" ->
  fetch_handler R i (fresh_page s)
  = ({| session := s; shown := [StError "Please enter an API key."]; sent := [] |}, Ok tt)
  /\ sent (fst (run R i s)) = []
  /\ session (fst (run R i s)) = s
  /\ In (StError "Please enter an API key.") (shown (fst (run R i s))).
Proof.
  intros Hclick Hkey.
  assert (Hempty : api_key i = "") by (unfold api_key; destruct Hkey as [-> | ->]; reflexivity).
  pose proof (fetch_handler_without_key i (fresh_page s) Hclick Hempty) as Hrun.
  split; [exact Hrun|].
  unfold run, run_page, sbind. rewrite Hrun.
  destruct (quiet_display i {| session := s; shown := [] ++ [StError "Please enter an API key."];
                               sent := [] |}) as (Hsent & Hsession & more & Hshown).
  cbn [session shown sent fresh_page] in *.
  repeat split; auto. rewrite Hshown. now left.
Qed.

Lemma fetch_handler_with_key (i : inputs) (p : page) :
  fetch_button i = true -> api_key i <> "" ->
  fetch_handler R i p
  = sbind (fetch_agri_data R (api_key i) (s2_cell_id i))
      (fun api_response =>
         if truthy api_response then
           sbind (store_raw_response api_response)
             (fun _ =>
                sbind (run_ui (parse_geojson_data R api_response))
                  (fun geojson =>
                     if truthy geojson then
                       sbind (store_geojson_data geojson)
                         (fun _ =>
                            sbind (eval (get geojson "features" (JList [])))
                              (fun features =>
                                 sbind (eval (get_latest_time_period R features))
                                   (fun latest =>
                                      sbind (store_latest_period latest)
                                        (fun _ =>
                                           sbind (eval (len features))
                                             (fun n =>
                                                show (StSuccess
                                                        ("Data fetched successfully! Found "
                                                         ++ Str.of_Z n ++ " fields.")))))))
                     else sret tt))
         else sret tt) p.
Proof.
  intros Hclick Hkey. unfold fetch_handler. rewrite Hclick.
  destruct (String.eqb_spec (api_key i) ""); [contradiction|reflexivity].
Qed.

Lemma iter_len (v : json) (l : list json) :
  iter v = Ok l -> exists n, len v = Ok n.
Proof. destruct v; try discriminate; simpl; eauto. Qed.

Lemma get_latest_time_period_len (features : json) (result : option period) :
  get_latest_time_period R features = Ok result -> exists n, len features = Ok n.
Proof.
  unfold get_latest_time_period. destruct (iter features) as [fs|e] eqn:Hiter; [|discriminate].
  intros _. exact (iter_len features fs Hiter).
Qed.

(** C2, amended. After a click with a key, no failed fetch replaces the
    selected period. A transport error leaves the whole session unchanged
    and is reported. On a data error the stored raw response has already
    been replaced by the new response: a payload that does not decode is
    reported as a parsing error and the stored collection is kept; an absent
    payload (one that decodes to an empty value) keeps the collection too
    and shows no message; a payload that decodes to a truthy value in which
    the features cannot be read or the periods cannot be scanned replaces
    the stored collection, and the exception ends the run unhandled. An
    empty response body changes nothing and shows no message. *)
Theorem failed_fetch_keeps_display (i : inputs) (s : session_state) :
  fetch_button i = true ->
  api_key i <> "" ->
  let request := monitor_request (api_key i) (s2_cell_id i) in
  let outcome := fetch_handler R i (fresh_page s) in
  let spinner := StSpinner "Fetching data from API..." in
  (forall e,
      requests_post R request = inl e ->
      outcome = ({| session := s;
                    shown := [spinner; StError ("API Request Failed: " ++ e)];
                    sent := [request] |}, Ok tt))
  /\ (forall body e,
         requests_post R request = inr body -> truthy body = true ->
         embedded_geojson R body = Raise e ->
         outcome = ({| session := {| geojson_data := geojson_data s;
                                     latest_period := latest_period s;
                                     raw_response := body |};
                       shown := [spinner; StError ("Error parsing GeoJSON: " ++ message e)];
                       sent := [request] |}, Ok tt))
  /\ (forall body geojson,
         requests_post R request = inr body -> truthy body = true ->
         embedded_geojson R body = Ok geojson -> truthy geojson = false ->
         outcome = ({| session := {| geojson_data := geojson_data s;
                                     latest_period := latest_period s;
                                     raw_response := body |};
                       shown := [spinner];
                       sent := [request] |}, Ok tt))
  /\ (forall body,
         requests_post R request = inr body -> truthy body = false ->
         outcome = ({| session := s; shown := [spinner]; sent := [request] |}, Ok tt))
  /\ (forall body geojson e,
         requests_post R request = inr body -> truthy body = true ->
         embedded_geojson R body = Ok geojson -> truthy geojson = true ->
         (features <- get geojson "features" (JList []) ;;
          get_latest_time_period R features) = Raise e ->
         outcome = ({| session := {| geojson_data := geojson;
                                     latest_period := latest_period s;
                                     raw_response := body |};
                       shown := [spinner];
                       sent := [request] |}, Raise e)).
Proof.
  intros Hclick Hkey request outcome spinner. subst outcome.
  rewrite (fetch_handler_with_key i _ Hclick Hkey).
  unfold sbind, fetch_agri_data, sbind, show, post, fresh_page. cbn [session shown sent app].
  fold request. destruct s as [g0 l0 r0]. cbn [geojson_data latest_period raw_response].
  repeat split.
  - intros e ->. reflexivity.
  - intros body e -> Hbody Hparse. unfold sret. rewrite Hbody.
    unfold store_raw_response, sbind, read, write, run_ui, parse_geojson_data.
    rewrite Hparse. reflexivity.
  - intros body geojson -> Hbody Hparse Hempty. unfold sret. rewrite Hbody.
    unfold store_raw_response, sbind, read, write, run_ui, parse_geojson_data.
    rewrite Hparse. cbn. rewrite Hempty. reflexivity.
  - intros body -> Hbody. unfold sret. now rewrite Hbody.
  - intros body geojson e -> Hbody Hparse Hgeo Hraise. unfold sret. rewrite Hbody.
    unfold store_raw_response, store_geojson_data, store_latest_period,
      sbind, read, write, run_ui, parse_geojson_data, eval.
    rewrite Hparse. cbn [uret fst snd session shown sent app]. rewrite Hgeo.
    cbn [session geojson_data latest_period raw_response shown sent].
    destruct (get geojson "features" (JList [])) as [features|e']; cbn [Py.bind] in Hraise.
    + rewrite Hraise. reflexivity.
    + now injection Hraise as ->.
Qed.

(** C10. The map, the CSV download, the summary statistics and the viewer
    of the raw response are shown only under the condition of the display: while the
    stored collection is falsy or no period is stored, the display writes
    the initial prompt and nothing else. Consequently, after a fetch that
    succeeds and parses but in which [get_latest_time_period] returns null,
    the session holds the new collection and no period, and the page shows
    the handler's spinner and success message followed by the initial prompt
    alone, with none of the four. *)
Theorem display_needs_period :
  (forall i p,
      truthy (geojson_data (session p)) && has_period (latest_period (session p)) = false ->
      display R i p
      = ({| session := session p;
            shown := (shown p ++ [StInfo initial_prompt])%list;
            sent := sent p |}, Ok tt))
  /\ (forall i s body geojson features,
         fetch_button i = true -> api_key i <> "" ->
         requests_post R (monitor_request (api_key i) (s2_cell_id i)) = inr body ->
         truthy body = true ->
         embedded_geojson R body = Ok geojson -> truthy geojson = true ->
         get geojson "features" (JList []) = Ok features ->
         get_latest_time_period R features = Ok None ->
         exists n,
           len features = Ok n
           /\ run R i s
              = ({| session := {| geojson_data := geojson;
                                  latest_period := None;
                                  raw_response := body |};
                    shown := [ StSpinner "Fetching data from API...";
                               StSuccess ("Data fetched successfully! Found "
                                          ++ Str.of_Z n ++ " fields.");
                               StInfo initial_prompt ];
                    sent := [monitor_request (api_key i) (s2_cell_id i)] |}, Ok tt)).
Proof.
  split.
  - intros i p Hgate. unfold display, sbind, read. now rewrite Hgate.
  - intros i s body geojson features Hclick Hkey Hpost Hbody Hparse Hgeo Hfeatures Hnone.
    destruct (get_latest_time_period_len features None Hnone) as (n & Hlen).
    exists n. split; [exact Hlen|].
    unfold run, run_page. unfold sbind at 1.
    rewrite (fetch_handler_with_key i _ Hclick Hkey).
    unfold sbind, fetch_agri_data, sbind, show, post, fresh_page. cbn [session shown sent app].
    rewrite Hpost. unfold sret. rewrite Hbody.
    unfold store_raw_response, store_geojson_data, store_latest_period,
      sbind, read, write, run_ui, parse_geojson_data, eval.
    rewrite Hparse. cbn [uret fst snd session shown sent app]. rewrite Hgeo.
    cbn [session geojson_data latest_period raw_response shown sent].
    rewrite Hfeatures, Hnone, Hlen.
    unfold display, sbind, read.
    cbn [session geojson_data latest_period has_period]. rewrite andb_false_r.
    unfold show. cbn [session shown sent app]. reflexivity.
Qed.

End Script.

(** *** The properties at work *)

Import Examples.

Example latest_period_of_two_fields :
  get_latest_time_period forbidden (JList (features_of two_fields))
  = Ok (latest_period earlier).
Proof. vm_compute. reflexivity. Qed.

(** Of two valid predictions with the same start the first one met stays. *)
Example first_of_equal_starts :
  option_map end_ts
    (match get_latest_time_period forbidden
             (JList [feature "field-1" [prediction 1698796800 1709251200 "WHEAT";
                                        prediction 1698796800 1706745600 "GRAM"]])
     with Ok r => r | Raise _ => None end)
  = Some (JInt 1709251200).
Proof. vm_compute. reflexivity. Qed.

(** A timestamp given as text makes the selector raise. *)
Example text_timestamp_raises :
  get_latest_time_period forbidden
    (JList [feature "field-1" [JDict [("start_timestamp_sec", JStr "1698796800")]]])
  = Raise (not_supported ">" (JStr "1698796800") (JInt 0)).
Proof. vm_compute. reflexivity. Qed.

Example int_of_text :
  py_int forbidden " 3486736072451293184 " = Some 3486736072451293184
  /\ py_int forbidden "1_000" = Some 1000
  /\ py_int forbidden "-12" = Some (-12)
  /\ py_int forbidden "12.0" = None
  /\ py_int forbidden "1__0" = None
  /\ py_int forbidden "" = None.
Proof. repeat split. Qed.

Example seasons_in_india :
  timestamp_to_month_year forbidden (JInt 1685577600) = Ok "June 2023"
  /\ timestamp_to_month_year forbidden (JInt 1709251199) = Ok "March 2024"
  /\ timestamp_to_month_year forbidden (JInt 0) = Ok "N/A"
  /\ timestamp_to_month_year forbidden JNull = Ok "N/A"
  /\ timestamp_to_month_year forbidden (JInt 253402300800)
     = Raise (Exn ValueError "year 10000 is out of range").
Proof. repeat split. Qed.

(** Text without cased letters outside ASCII is raised letter by letter. *)
Example forbidden_upper_stable : upper_stable forbidden.
Proof.
  assert (H : forall s, py_upper forbidden s = Str.upper s)
    by (intros s; unfold py_upper; destruct (Str.is_ascii s); reflexivity).
  intros s. rewrite !H. split; [apply upper_idempotent|apply upper_replace].
Qed.

Lemma get_crop_color_normalizes_witness :
  get_crop_color forbidden (JStr "Sugar cane")
  = get_crop_color forbidden (JStr (normalize forbidden "Sugar cane"))
  /\ normalize forbidden "Sugar cane" = "SUGAR_CANE"
  /\ get_crop_color forbidden (JStr "sugarcane") = Ok "#00CED1"
  /\ get_crop_color forbidden (JStr "Sugar cane") = Ok "#666666".
Proof.
  split; [|repeat split].
  exact (proj1 (get_crop_color_normalizes forbidden "Sugar cane" (or_introl eq_refl))).
Defined.

Lemma get_latest_time_period_selects_witness :
  forallb (wf_feature forbidden) (features_of two_fields) = true
  /\ exists result,
       get_latest_time_period forbidden (JList (features_of two_fields)) = Ok result
       /\ match result with
          | Some p => latest_of forbidden (all_timestamps (features_of two_fields)) p
          | None => none_valid (all_timestamps (features_of two_fields))
          end
       /\ (result = None <-> none_valid (all_timestamps (features_of two_fields))).
Proof.
  split; [vm_compute; reflexivity|].
  apply (get_latest_time_period_selects forbidden (features_of two_fields)).
  vm_compute; reflexivity.
Defined.

Lemma prepare_csv_data_row_count_witness :
  wf_collection forbidden two_fields = true
  /\ exists rows,
       prepare_csv_data forbidden two_fields = Ok rows
       /\ Forall2 (row_of forbidden) (pairs_of two_fields) rows
       /\ List.length rows = List.length (pairs_of two_fields)
       /\ List.length rows
          = list_sum (map (fun f => List.length (predictions_of f)) (features_of two_fields)).
Proof.
  split; [vm_compute; reflexivity|].
  apply (prepare_csv_data_row_count forbidden two_fields).
  vm_compute; reflexivity.
Defined.

Lemma prepare_csv_data_defaults_witness :
  wf_collection forbidden (collection [feature "field-1" [undated; JDict []]]) = true
  /\ exists rows,
       prepare_csv_data forbidden (collection [feature "field-1" [undated; JDict []]]) = Ok rows
       /\ Forall2 (fun pair r => copies_fields pair r /\ formats_seasons forbidden pair r)
                  (pairs_of (collection [feature "field-1" [undated; JDict []]])) rows.
Proof.
  split; [vm_compute; reflexivity|].
  apply (prepare_csv_data_defaults forbidden).
  vm_compute; reflexivity.
Defined.

(** C9, as stated, fails: for a prediction without a start timestamp the
    cell of Season_Start is the text N/A, which is neither an empty string
    nor a zero. *)
Lemma missing_season_is_not_empty :
  field "start_timestamp_sec" (JDict []) = None
  /\ exists r,
       prepare_csv_data forbidden (collection [feature "field-1" [JDict []]]) = Ok [r]
       /\ assoc "Season_Start" r = Some (JStr "N/A")
       /\ JStr "N/A" <> JStr "" /\ JStr "N/A" <> JInt 0.
Proof.
  split; [reflexivity|]. eexists. split; [vm_compute; reflexivity|].
  split; [reflexivity|]. split; discriminate.
Qed.

Lemma create_map_no_prediction_color_witness :
  exists messages m,
    create_map forbidden (collection [feature "field-1" []; feature "field-2" [kharif_2023]])
               "3486736072451293184" true
    = (messages, Ok (Some m))
    /\ exists fs,
         (features <- get (collection [feature "field-1" []; feature "field-2" [kharif_2023]])
                          "features" (JList []) ;;
          iter features) = Ok fs
         /\ Forall2 (fun f o =>
                       feature_overlay forbidden f = Ok o
                       /\ (lacks_predictions f = true ->
                           fill_color o = "#CCCCCC" /\ popup_of o = NoData))
                    fs (overlays m).
Proof.
  exists []. eexists. split; [vm_compute; reflexivity|].
  apply (proj2 (create_map_no_prediction_color forbidden)
           (collection [feature "field-1" []; feature "field-2" [kharif_2023]])
           "3486736072451293184" true []).
  vm_compute; reflexivity.
Defined.

(** C3, as stated, fails: the only prediction of this feature has no
    timestamps, so the feature has no valid prediction, and its overlay gets
    the colour of WHEAT, not the colour of NO_PREDICTION. *)
Lemma invalid_prediction_is_colored :
  filter validb (map timestamps_of (predictions_of (feature "field-1" [undated]))) = []
  /\ exists messages m,
       create_map forbidden (collection [feature "field-1" [undated]])
                  "3486736072451293184" true
       = (messages, Ok (Some m))
       /\ map fill_color (overlays m) = ["#F4A460"]
       /\ lookup "NO_PREDICTION" CROP_COLORS = Some "#CCCCCC"
       /\ lookup "WHEAT" CROP_COLORS = Some "#F4A460".
Proof.
  split; [reflexivity|]. eexists. eexists.
  split; [vm_compute; reflexivity|]. repeat split.
Qed.

Lemma create_map_invalid_cell_witness :
  py_int forbidden "not-a-cell" = None
  /\ create_map forbidden two_fields "not-a-cell" true
     = ([StError "Invalid S2 Cell ID format. Please ensure it is a numeric ID."], Ok None).
Proof.
  split; [reflexivity|].
  exact (create_map_invalid_cell forbidden two_fields "not-a-cell" true
           eq_refl eq_refl eq_refl).
Defined.

Lemma no_key_no_request_witness :
  fetch_handler forbidden (clicked None) (fresh_page earlier)
  = ({| session := earlier; shown := [StError "Please enter an API key."]; sent := [] |}, Ok tt)
  /\ sent (fst (run forbidden (clicked None) earlier)) = []
  /\ session (fst (run forbidden (clicked None) earlier)) = earlier
  /\ In (StError "Please enter an API key.") (shown (fst (run forbidden (clicked None) earlier))).
Proof.
  apply (no_key_no_request forbidden (clicked None) earlier); [reflexivity|now left].
Defined.

Lemma failed_fetch_keeps_display_witness :
  fetch_handler forbidden (clicked (Some "secret")) (fresh_page earlier)
  = ({| session := earlier;
        shown := [ StSpinner "Fetching data from API...";
                   StError ("API Request Failed: 403 Client Error: Forbidden for url: "
                            ++ url (monitor_request "secret" "3486736072451293184")) ];
        sent := [monitor_request "secret" "3486736072451293184"] |}, Ok tt).
Proof.
  refine (proj1 (failed_fetch_keeps_display forbidden (clicked (Some "secret")) earlier
                   eq_refl _) _ eq_refl).
  discriminate.
Defined.

(** C2, as stated, fails three times. A response whose embedded payload
    is no JSON is reported, but the stored raw response is replaced by it; a
    response without an embedded payload replaces the raw response and
    shows no message; and a payload that is JSON but no collection replaces
    the stored collection as well, before the handler raises. *)
Lemma data_error_replaces_raw_response :
  embedded_geojson garbled (envelope "not json") = Raise decode_error
  /\ raw_response (session (fst (fetch_handler garbled (clicked (Some "secret"))
                                   (fresh_page earlier))))
     = envelope "not json"
  /\ raw_response earlier <> envelope "not json"
  /\ fetch_handler without_payload (clicked (Some "secret")) (fresh_page earlier)
     = ({| session := {| geojson_data := geojson_data earlier;
                         latest_period := latest_period earlier;
                         raw_response := JDict [("monitoredLandscape", JDict [])] |};
           shown := [StSpinner "Fetching data from API..."];
           sent := [monitor_request "secret" "3486736072451293184"] |}, Ok tt)
  /\ fetch_handler listing (clicked (Some "secret")) (fresh_page earlier)
     = ({| session := {| geojson_data := JList [JInt 1];
                         latest_period := latest_period earlier;
                         raw_response := envelope "[1]" |};
           shown := [StSpinner "Fetching data from API..."];
           sent := [monitor_request "secret" "3486736072451293184"] |},
        Raise (no_attribute (JList [JInt 1]) "get")).
Proof. repeat split; try reflexivity. discriminate. Qed.

Lemma display_needs_period_witness :
  get_latest_time_period (answering (collection [feature "field-1" [undated]]))
    (JList [feature "field-1" [undated]]) = Ok None
  /\ exists n,
       len (JList [feature "field-1" [undated]]) = Ok n
       /\ run (answering (collection [feature "field-1" [undated]]))
              (clicked (Some "secret")) initial_session
          = ({| session := {| geojson_data := collection [feature "field-1" [undated]];
                              latest_period := None;
                              raw_response := envelope "(the collection)" |};
                shown := [ StSpinner "Fetching data from API...";
                           StSuccess ("Data fetched successfully! Found "
                                      ++ Str.of_Z n ++ " fields.");
                           StInfo initial_prompt ];
                sent := [monitor_request "secret" "3486736072451293184"] |}, Ok tt).
Proof.
  split; [reflexivity|].
  refine (proj2 (display_needs_period (answering (collection [feature "field-1" [undated]])))
            (clicked (Some "secret")) initial_session
            (envelope "(the collection)") (collection [feature "field-1" [undated]])
            (JList [feature "field-1" [undated]])
            eq_refl _ eq_refl eq_refl eq_refl eq_refl eq_refl eq_refl).
  discriminate.
Defined.

(** ** Further properties of the page *)

(** *** The response parser and the labels *)

Section Parser.

Context (R : Runtime).

(** X1. [parse_geojson_data] never raises, whatever the response is: it
    returns the decoded collection without a message, or null with exactly
    one parsing error. A response that is no object is reported without the
    decoder being called, and for an object without the envelope key the
    default text, an empty JSON object, is decoded. *)
Theorem parse_geojson_data_never_raises (api_response : json) :
  (exists geojson messages,
      parse_geojson_data R api_response = (messages, Ok geojson)
      /\ ((messages = [] /\ embedded_geojson R api_response = Ok geojson)
          \/ (geojson = JNull
              /\ exists e, embedded_geojson R api_response = Raise e
                           /\ messages = [StError ("Error parsing GeoJSON: " ++ message e)])))
  /\ (is_dict api_response = false ->
      parse_geojson_data R api_response
      = ([StError ("Error parsing GeoJSON: " ++ quote (type_name api_response)
                   ++ " object has no attribute 'get'")], Ok JNull))
  /\ (is_dict api_response = true -> field "monitoredLandscape" api_response = None ->
      embedded_geojson R api_response = json_loads R "{}").
Proof.
  repeat split.
  - unfold parse_geojson_data. destruct (embedded_geojson R api_response) as [g|e].
    + exists g, []. split; [reflexivity|]. now left.
    + eexists JNull, _. split; [reflexivity|]. right. split; [reflexivity|].
      exists e. split; reflexivity.
  - destruct api_response; try discriminate; reflexivity.
  - destruct api_response as [| | | | | |d]; try discriminate. intros _.
    unfold field, entries, embedded_geojson, get. now intros ->.
Qed.

Lemma month_name_not_slash (m : Z) :
  exists c rest, Calendar.month_name m = String c rest /\ rest <> "/A"
                 /\ (c = "N"%char -> exists rest', rest = String "o" rest').
Proof.
  unfold Calendar.month_name.
  repeat match goal with
         | |- context [match ?x with _ => _ end] => destruct x
         end;
    eexists; eexists; (split; [reflexivity|split; [discriminate|]]);
    intros; try discriminate; eauto.
Qed.

Lemma month_year_not_na (t : Z) : month_year R t <> "N/A".
Proof.
  unfold month_year. destruct (Calendar.civil_from_days _) as [y m].
  destruct (month_name_not_slash m) as (c & rest & -> & _ & Hn).
  cbn [String.append]. intros [= Hc Hrest].
  destruct (Hn Hc) as (rest' & ->). discriminate.
Qed.

(** X2. The season label tells a missing season from a present one: every
    falsy timestamp (null, 0, an empty text) is labelled N/A without an
    exception, and an integer timestamp that the calendar can represent is
    labelled N/A exactly when it is not positive. *)
Theorem timestamp_label_na (t : Z) :
  is_timestamp R (JInt t) = true ->
  (timestamp_to_month_year R (JInt t) = Ok "N/A" <-> t <= 0)
  /\ (forall v, truthy v = false -> timestamp_to_month_year R v = Ok "N/A").
Proof.
  intros Hwf. split.
  - rewrite (timestamp_label R t Hwf). destruct (Z.ltb_spec 0 t) as [Hpos|Hneg].
    + split; [|lia]. intros [= H]. now destruct (month_year_not_na t).
    + split; [lia|reflexivity].
  - intros v Hv. unfold timestamp_to_month_year. now rewrite Hv.
Qed.

End Parser.

Lemma timestamp_label_na_witness :
  is_timestamp Examples.forbidden (JInt 1685577600) = true
  /\ (timestamp_to_month_year Examples.forbidden (JInt 1685577600) = Ok "N/A"
      <-> 1685577600 <= 0)
  /\ (forall v, truthy v = false -> timestamp_to_month_year Examples.forbidden v = Ok "N/A").
Proof.
  split; [reflexivity|].
  apply (timestamp_label_na Examples.forbidden 1685577600). reflexivity.
Defined.

(** *** The colour table and the legend *)

Lemma lookup_in (key : string) (table : list (string * string)) (v : string) :
  lookup key table = Some v -> In v (map snd table).
Proof.
  induction table as [|[k c] rest IH]; simpl; [discriminate|].
  destruct (String.eqb k key); [intros [= ->]; now left|auto].
Qed.

Section Legend.

Context (R : Runtime).

(** X3. The fallback colour identifies the unmapped names: [get_crop_color]
    returns #666666 exactly when the normalized name is not a key of the
    table, because no crop of the table has that colour. *)
Theorem fallback_color_iff_unmapped (crop_name : string) :
  get_crop_color R (JStr crop_name) = Ok "#666666"
  <-> lookup (normalize R crop_name) CROP_COLORS = None.
Proof.
  unfold get_crop_color. split.
  - destruct (lookup (normalize R crop_name) CROP_COLORS) as [c|] eqn:Hc; [|reflexivity].
    intros [= ->]. apply lookup_in in Hc. simpl in Hc.
    repeat (destruct Hc as [Hc|Hc]; [discriminate|]). destruct Hc.
  - now intros ->.
Qed.

Lemma title_char_round_trip (c : ascii) (after_letter : bool) :
  Str.is_upper c || Ascii.eqb c "_" = true ->
  let shown := if Ascii.eqb c "_" then " "%char else c in
  let titled := if Str.is_lower shown || Str.is_upper shown
                then if after_letter then Str.lower_char shown else Str.upper_char shown
                else shown in
  (if Ascii.eqb (Str.upper_char titled) " " then "_"%char else Str.upper_char titled) = c
  /\ (Str.is_lower shown || Str.is_upper shown) = Str.is_upper c
  /\ (nat_of_ascii titled <? 128)%nat = true.
Proof.
  destruct after_letter; destruct c as [[] [] [] [] [] [] [] []];
    try discriminate; intros _; repeat split; reflexivity.
Qed.

Lemma title_round_trip (key : string) (after_letter : bool) :
  table_key key = true ->
  Str.replace " " "_" (Str.upper (Str.title_from after_letter (Str.replace "_" " " key)))
  = key
  /\ Str.is_ascii (Str.title_from after_letter (Str.replace "_" " " key)) = true.
Proof.
  revert after_letter. induction key as [|c key IH]; intros after_letter;
    [split; reflexivity|].
  cbn [table_key Str.replace Str.title_from]. rewrite andb_true_iff. intros [Hc Hkey].
  destruct (title_char_round_trip c after_letter Hc) as (Hchar & Hletter & Hascii).
  cbv zeta in Hchar, Hletter, Hascii.
  destruct (Str.is_lower _ || Str.is_upper _) eqn:Hl;
    cbn [Str.upper Str.replace Str.is_ascii];
    destruct (IH true Hkey) as [IHt IHta]; destruct (IH false Hkey) as [IHf IHfa];
    rewrite ?IHt, ?IHf, ?IHta, ?IHfa, Hascii; split; try reflexivity;
    f_equal; exact Hchar.
Qed.

(** X4. The legend and the lookup agree. The name the legend displays for a
    key made of capital letters and underscores (underscores shown as
    spaces, words capitalized) normalizes back to the key; every key of the
    colour table is such a name, so the colour looked up for a displayed
    legend name is the colour shown beside it. *)
Theorem legend_names_round_trip :
  (forall key, table_key key = true ->
               normalize R (Str.title (Str.replace "_" " " key)) = key)
  /\ Forall (fun entry => table_key (fst entry) = true) CROP_COLORS
  /\ Forall (fun entry => get_crop_color R (JStr (snd entry)) = Ok (fst entry))
            legend_entries
  /\ map fst legend_entries = map snd CROP_COLORS.
Proof.
  split.
  - intros key Hkey. destruct (title_round_trip key false Hkey) as [Hback Hascii].
    unfold normalize, Str.title. now rewrite (py_upper_ascii R _ Hascii).
  - split; [repeat constructor|]. split; [repeat constructor|reflexivity].
Qed.

End Legend.

(** *** The overlays of the map *)

Section Overlays.

Context (R : Runtime).

Lemma start_value (pred : json) :
  wf_prediction R pred = true ->
  get pred "start_timestamp_sec" (JInt 0) = Ok (JInt (start_of pred)).
Proof.
  intros Hwf. destruct (wf_prediction_dict R pred Hwf) as (d & -> & Hstart & _).
  exact (proj1 (timestamp_value R _ _ Hstart)).
Qed.

Lemma max_step_first_latest (first : json) (seen : list json) (best : json * json)
      (q : json) :
  wf_prediction R q = true ->
  first_latest (fst best) (first :: seen) /\ snd best = JInt (start_of (fst best)) ->
  exists best',
    max_step best q = Ok best'
    /\ first_latest (fst best') (first :: seen ++ [q])
    /\ snd best' = JInt (start_of (fst best')).
Proof.
  intros Hq [(before & after & Hsplit & Hbefore & Hafter) Hkey].
  unfold max_step. rewrite (start_value q Hq), Hkey. cbn [Py.bind].
  rewrite gt_int. cbn [Py.bind]. rewrite Z.gtb_ltb.
  destruct (Z.ltb_spec (start_of (fst best)) (start_of q)) as [Hgt|Hle];
    eexists; (split; [reflexivity|]); cbn [fst snd]; (split; [|auto]).
  - exists (first :: seen), []. repeat split; [|intros x []].
    intros x Hx. rewrite Hsplit in Hx.
    apply in_app_or in Hx as [Hx|[<-|Hx]];
      [specialize (Hbefore x Hx)| |specialize (Hafter x Hx)]; lia.
  - exists before, (after ++ [q])%list. repeat split; auto.
    + change (first :: seen ++ [q])%list with ((first :: seen) ++ [q])%list.
      rewrite Hsplit, <- app_assoc. reflexivity.
    + intros x Hx. apply in_app_or in Hx as [Hx|[<-|[]]]; auto.
Qed.

Lemma max_by_start_first_latest (preds : list json) :
  forallb (wf_prediction R) preds = true -> preds <> [] ->
  exists p, max_by_start (JList preds) = Ok p /\ first_latest p preds.
Proof.
  destruct preds as [|first rest]; [congruence|]. intros Hwf _.
  cbn [forallb] in Hwf. apply andb_true_iff in Hwf as [Hfirst Hrest].
  unfold max_by_start. cbn [iter Py.bind]. rewrite (start_value first Hfirst).
  cbn [Py.bind].
  destruct (foldM_invariant max_step (wf_prediction R) (fun q => [q])
              (fun seen best =>
                 first_latest (fst best) (first :: seen)
                 /\ snd best = JInt (start_of (fst best))))
    with (l := rest) (seen := @nil json) (a := (first, JInt (start_of first)))
    as (best & -> & Hbest & _); auto.
  - intros seen best q Hq Hinv.
    destruct (max_step_first_latest first seen best q Hq Hinv) as (best' & Hrun & Hinv').
    now exists best'.
  - split; [|reflexivity]. exists [], []. repeat split; intros x [].
  - cbn [Py.bind app] in *. rewrite flat_map_singleton, map_id in Hbest. eauto.
Qed.

Lemma first_latest_in (p : json) (preds : list json) :
  first_latest p preds -> In p preds.
Proof. intros (before & after & -> & _). apply in_or_app. right. now left. Qed.

(** X5. Colour and popup of a feature come from one prediction. For a
    well-formed feature that has predictions, the overlay is coloured by the
    primary crop of the first prediction with the greatest start timestamp
    (NO_PREDICTION when it names none), and the popup describes that same
    prediction: its season labels and its first two crops, or no data when
    that prediction is an empty object; the popup raises only where the
    formatting of the area or of a confidence does. *)
Theorem overlay_follows_latest_prediction (feature : json) :
  wf_feature R feature = true ->
  predictions_of feature <> [] ->
  exists p,
    first_latest p (predictions_of feature)
    /\ feature_crop_name feature
       = Ok (field_or "crop_1" (JStr "NO_PREDICTION") (crop_prediction_of p))
    /\ create_feature_popup R feature true
       = if truthy p then
           area <- format R (field_or "area_sq_m" (JInt 0) (properties_of feature)) ".2f" ;;
           season_start <- timestamp_to_month_year R (field_or "start_timestamp_sec" JNull p) ;;
           season_end <- timestamp_to_month_year R (field_or "end_timestamp_sec" JNull p) ;;
           conf_1 <- format R (field_or "conf_1" (JInt 0) (crop_prediction_of p)) ".2%" ;;
           conf_2 <- format R (field_or "conf_2" (JInt 0) (crop_prediction_of p)) ".2%" ;;
           Ok (FieldInfo (str R (field_or "id" (JStr "N/A") feature)) area
                         season_start season_end
                         (str R (field_or "crop_1" (JStr "N/A") (crop_prediction_of p)))
                         conf_1
                         (str R (field_or "crop_2" (JStr "N/A") (crop_prediction_of p)))
                         conf_2)
         else Ok NoData.
Proof.
  intros Hwf Hsome.
  destruct (wf_feature_predictions R feature Hwf) as (Hf & Hp & Hprops & Hpreds & Hall).
  destruct (max_by_start_first_latest _ Hall Hsome) as (p & Hmax & Hfirst).
  exists p. split; [exact Hfirst|].
  assert (Hwfp : wf_prediction R p = true).
  { rewrite forallb_forall in Hall. apply Hall. now apply first_latest_in. }
  destruct (wf_prediction_dict R p Hwfp) as (d & -> & _ & _ & Hcrop).
  assert (Hnonempty : truthy (JList (predictions_of feature)) = true)
    by (destruct (predictions_of feature); [congruence|reflexivity]).
  assert (Hc : exists cd, crop_prediction_of (JDict d) = JDict cd).
  { unfold crop_prediction_of, field_or, field, entries, absent_or in *.
    destruct (assoc "crop_prediction" d) as [[| | | | | |cd]|]; try discriminate; eauto. }
  destruct Hc as (cd & Hcd).
  assert (Hgetc : get (JDict d) "crop_prediction" (JDict []) = Ok (JDict cd))
    by (rewrite <- Hcd; reflexivity).
  destruct feature as [| | | | | |fd]; try discriminate.
  destruct (properties_of (JDict fd)) as [| | | | | |pd] eqn:Hpd; try discriminate.
  split.
  - unfold feature_crop_name. rewrite Hprops. cbn [Py.bind]. rewrite Hpreds.
    cbn [Py.bind]. rewrite Hnonempty, Hmax. cbn [Py.bind]. rewrite Hgetc, Hcd.
    reflexivity.
  - unfold create_feature_popup. rewrite Hprops. cbn [Py.bind]. rewrite Hpreds.
    cbn [Py.bind]. rewrite Hnonempty, Hmax. cbn [Py.bind].
    destruct (truthy (JDict d)); cbn [negb]; [|reflexivity].
    rewrite Hgetc, Hcd. cbn [Py.bind get field_or field entries].
    destruct (format R _ ".2f"); cbn [Py.bind]; [|reflexivity].
    destruct (timestamp_to_month_year R _); cbn [Py.bind]; [|reflexivity].
    destruct (timestamp_to_month_year R _); cbn [Py.bind]; [|reflexivity].
    destruct (format R _ ".2%"); cbn [Py.bind]; [|reflexivity].
    reflexivity.
Qed.

Lemma mapM_raises {A B : Type} (f : A -> py B) (l : list A) (x : A) (e : exn) :
  In x l -> f x = Raise e -> exists e', mapM f l = Raise e'.
Proof.
  induction l as [|y l IH]; [intros []|]. intros [->|Hin] Hx; simpl.
  - rewrite Hx. simpl. eauto.
  - destruct (f y); simpl; [|eauto]. destruct (IH Hin Hx) as (e' & ->). simpl. eauto.
Qed.

(** X6. The cell conversion never makes [create_map] raise: when the
    identifier is a number but s2sphere raises on it, the exception is
    reported and no map is returned. A [ValueError] of the library gets the
    message about a non-numeric identifier, every other exception the
    message that carries its text. *)
Theorem create_map_reports_conversion_error (geojson : json) (cell_id_input : string)
        (use_latest : bool) (n : Z) (e : exn) :
  is_dict geojson = true ->
  truthy (field_or "features" (JList []) geojson) = true ->
  py_int R cell_id_input = Some n ->
  cell_center R n = Raise e ->
  create_map R geojson cell_id_input use_latest
  = ([StError (match kind e with
               | ValueError | JSONDecodeError =>
                   "Invalid S2 Cell ID format. Please ensure it is a numeric ID."
               | _ => "Error calculating map center: " ++ message e
               end)], Ok None).
Proof.
  intros Hdict Hfeatures Hint Hcenter. destruct geojson as [| | | | | |d]; try discriminate.
  unfold create_map, ubind, lift, emit, uret, map_center, get.
  unfold field_or, field, entries in Hfeatures.
  rewrite Hint, Hcenter. cbn [Py.bind]. rewrite Hfeatures. cbn [negb].
  destruct (kind e); reflexivity.
Qed.

Lemma overlays_carry_features (fs : list json) (added : list overlay) :
  Forall2 (fun f o => feature_overlay R f = Ok o) fs added ->
  map feature_of added = fs /\ Forall (fun f => folium_geojson R f = Ok tt) fs.
Proof.
  induction 1 as [|f o fs added Ho _ [IH IHtaken]]; [split; [reflexivity|constructor]|].
  cbn [map]. unfold feature_overlay in Ho.
  destruct (feature_crop_name f); [|discriminate]. cbn [Py.bind] in Ho.
  destruct (get_crop_color _); [|discriminate]. cbn [Py.bind] in Ho.
  destruct (create_feature_popup R f true); [|discriminate]. cbn [Py.bind] in Ho.
  destruct (folium_geojson R f) as [[]|] eqn:Htaken; [|discriminate].
  injection Ho as <-. cbn [feature_of]. split; [now rewrite IH|now constructor].
Qed.

(** X7. What a returned map is made of: it is centred on the centre
    s2sphere gives for the identifier that [int] reads as a number, at zoom
    13; it has one overlay per feature, in the order of the collection, each
    carrying its feature, and folium has taken every feature; it has the
    legend of the whole table; and nothing was written to the page. The
    [use_latest] argument changes nothing. *)
Theorem create_map_shape (geojson : json) (cell_id_input : string) (use_latest : bool)
        (messages : list widget) (m : folium_map) :
  create_map R geojson cell_id_input use_latest = (messages, Ok (Some m)) ->
  messages = []
  /\ (exists n, py_int R cell_id_input = Some n /\ cell_center R n = Ok (location m))
  /\ zoom_start m = 13
  /\ legend m = legend_entries
  /\ (exists fs,
         (features <- get geojson "features" (JList []) ;; iter features) = Ok fs
         /\ fs <> []
         /\ map feature_of (overlays m) = fs
         /\ Forall (fun f => folium_geojson R f = Ok tt) fs)
  /\ create_map R geojson cell_id_input (negb use_latest)
     = create_map R geojson cell_id_input use_latest.
Proof.
  unfold create_map, ubind, lift, emit, uret, map_center.
  destruct (get geojson "features" (JList [])) as [features|e]; [|discriminate].
  cbn [Py.bind]. destruct (truthy features) eqn:Htruthy; cbn [negb]; [|discriminate].
  destruct (py_int R cell_id_input) as [n|]; [|discriminate].
  destruct (cell_center R n) as [center|e] eqn:Hcenter;
    [|destruct (kind e); discriminate].
  destruct (iter features) as [fs|e] eqn:Hiter; [|discriminate].
  destruct (mapM (feature_overlay R) fs) as [added|e] eqn:Hadded; [|discriminate].
  intros [= <- <-]. cbn [location zoom_start legend overlays].
  repeat split; eauto.
  exists fs. repeat split.
  - intros ->. destruct features as [| | | | s | l | d]; try discriminate;
      [destruct s|destruct l|destruct d]; discriminate.
  - apply mapM_Ok_Forall2 in Hadded. now apply overlays_carry_features.
  - apply mapM_Ok_Forall2 in Hadded. now apply (overlays_carry_features fs added).
Qed.

(** X8. A primary crop that is no text is not handled: when the crop name
    found for some feature is not a string (a null, a number), colouring it
    raises, and [create_map], whose handler covers only the cell conversion,
    raises too, with nothing written to the page. *)
Theorem create_map_raises_on_crop (geojson : json) (cell_id_input : string)
        (use_latest : bool) (fs : list json) (f crop : json) :
  get geojson "features" (JList []) = Ok (JList fs) ->
  In f fs ->
  feature_crop_name f = Ok crop ->
  (forall s, crop <> JStr s) ->
  (exists n center, py_int R cell_id_input = Some n /\ cell_center R n = Ok center) ->
  feature_overlay R f = Raise (no_attribute crop "upper")
  /\ exists e, create_map R geojson cell_id_input use_latest = ([], Raise e).
Proof.
  intros Hget Hin Hcrop Htext (n & center & Hint & Hcenter).
  assert (Hf : feature_overlay R f = Raise (no_attribute crop "upper")).
  { unfold feature_overlay. rewrite Hcrop. cbn [Py.bind].
    destruct crop; try reflexivity. now destruct (Htext s). }
  split; [exact Hf|].
  unfold create_map, ubind, lift, emit, uret, map_center.
  rewrite Hget, Hint, Hcenter. cbn [Py.bind truthy].
  destruct fs as [|f0 fs']; [destruct Hin|]. cbn [negb iter].
  destruct (mapM_raises (feature_overlay R) (f0 :: fs') f _ Hin Hf) as (e & ->).
  now exists e.
Qed.

End Overlays.

(** *** The selector, more closely *)

Section SelectorOrder.

Context (R : Runtime).

(** One step of the scan on a well-formed prediction, in closed form. *)
Lemma scan_prediction_step (acc : option period * json) (pred : json) (m : Z) :
  wf_prediction R pred = true -> snd acc = JInt m ->
  let s := fst (timestamps_of pred) in
  let e := snd (timestamps_of pred) in
  scan_prediction R acc pred
  = Ok (if (m <? s) && (0 <? s) && (0 <? e)
        then (Some {| period_key := Str.of_Z s ++ "_" ++ Str.of_Z e;
                      label := month_year R s ++ " - " ++ month_year R e;
                      start_ts := JInt s;
                      end_ts := JInt e |}, JInt s)
        else acc).
Proof.
  intros Hwf Hm.
  destruct (wf_prediction_dict R pred Hwf) as (d & -> & Hstart & Hend & _).
  destruct (timestamp_value R _ _ Hstart) as [Hs Hs'].
  destruct (timestamp_value R _ _ Hend) as [He He'].
  unfold scan_prediction, timestamps_of. cbn [fst snd]. rewrite Hs, He, Hm.
  cbn [Py.bind]. rewrite !gt_int, !Z.gtb_ltb.
  destruct (Z.ltb_spec m (timestamp_of "start_timestamp_sec" (JDict d)));
    cbn [Py.bind andb]; [|reflexivity].
  destruct (Z.ltb_spec 0 (timestamp_of "start_timestamp_sec" (JDict d)));
    cbn [Py.bind andb]; [|reflexivity].
  destruct (Z.ltb_spec 0 (timestamp_of "end_timestamp_sec" (JDict d)));
    cbn [Py.bind andb]; [|reflexivity].
  rewrite (timestamp_label R _ Hs'), (timestamp_label R _ He').
  destruct (Z.ltb_spec 0 (timestamp_of "start_timestamp_sec" (JDict d))); [|lia].
  destruct (Z.ltb_spec 0 (timestamp_of "end_timestamp_sec" (JDict d))); [|lia].
  reflexivity.
Qed.

Lemma scan_prediction_scanned_first (seen : list (Z * Z)) (acc : option period * json)
      (pred : json) :
  wf_prediction R pred = true -> scanned_first seen acc ->
  exists acc', scan_prediction R acc pred = Ok acc'
               /\ scanned_first (seen ++ [timestamps_of pred]) acc'.
Proof.
  intros Hwf (m & Hm & Hacc).
  rewrite (scan_prediction_step acc pred m Hwf Hm). cbv zeta.
  destruct (timestamps_of pred) as [s e]. cbn [fst snd].
  eexists. split; [reflexivity|].
  destruct ((m <? s) && (0 <? s) && (0 <? e)) eqn:Hcond.
  - apply andb_true_iff in Hcond as [Hcond He]. apply andb_true_iff in Hcond as [Hm' Hs].
    apply Z.ltb_lt in Hm', Hs, He.
    exists s. split; [reflexivity|]. cbn [fst]. exists e.
    split; [|split; reflexivity].
    exists seen, []. repeat split; auto; [|intros x []].
    intros x Hx Hv. destruct (fst acc) as [p|].
    + destruct Hacc as (e0 & (before & after & -> & Hv0 & Hbefore & Hafter) & _).
      apply in_app_or in Hx as [Hx|[<-|Hx]];
        [specialize (Hbefore x Hx Hv)|cbn|specialize (Hafter x Hx Hv)]; cbn in *; lia.
    + destruct Hacc as [_ Hnone]. now destruct (Hnone x Hx).
  - assert (Hle : valid (s, e) -> s <= m).
    { intros [Hs He]. cbn in Hs, He.
      destruct (Z.ltb_spec m s); [|lia].
      destruct (Z.ltb_spec 0 s); [|lia]. destruct (Z.ltb_spec 0 e); [|lia].
      discriminate. }
    exists m. split; [exact Hm|]. destruct (fst acc) as [p|].
    + destruct Hacc as (e0 & (before & after & -> & Hv0 & Hbefore & Hafter) & Hp).
      exists e0. split; [|exact Hp].
      exists before, (after ++ [(s, e)])%list. repeat split; auto; try apply Hv0.
      * now rewrite <- app_assoc.
      * intros x Hx Hv. apply in_app_or in Hx as [Hx|[<-|[]]]; auto.
    + destruct Hacc as [-> Hnone]. split; [reflexivity|].
      intros x Hx Hv. apply in_app_or in Hx as [Hx|[<-|[]]]; [now apply (Hnone x)|].
      specialize (Hle Hv). destruct Hv as [Hs _]. cbn in Hs. lia.
Qed.

Lemma selector_scanned_first (features : list json) :
  forallb (wf_feature R) features = true ->
  exists result mx,
    get_latest_time_period R (JList features) = Ok result
    /\ scanned_first (all_timestamps features) (result, mx).
Proof.
  intros Hwf. unfold get_latest_time_period. cbn [iter Py.bind].
  destruct (foldM_invariant (scan_feature R) (wf_feature R)
              (fun f => map timestamps_of (predictions_of f)) scanned_first)
    with (l := features) (seen := @nil (Z * Z)) (a := (@None period, JInt 0))
    as ([result mx] & -> & Hresult); auto.
  - intros seen acc f Hf Hacc.
    destruct (wf_feature_predictions R f Hf) as (_ & _ & Hprops & Hpreds & Hall).
    unfold scan_feature. rewrite Hprops. cbn [Py.bind]. rewrite Hpreds. cbn [Py.bind iter].
    rewrite <- flat_map_singleton.
    apply (foldM_invariant (scan_prediction R) (wf_prediction R)
             (fun pred => [timestamps_of pred]) scanned_first); auto.
    intros. now apply scan_prediction_scanned_first.
  - exists 0. repeat split. intros ts [].
  - exists result, mx. split; [reflexivity|exact Hresult].
Qed.

(** X9. Ties go to the first prediction met. On well-formed features the
    period returned belongs to the first valid prediction, in the order of
    the features and of their predictions, whose start is the greatest
    among the valid ones: every valid prediction before it starts strictly
    earlier, and none after it starts later. *)
Theorem get_latest_time_period_first (features : list json) :
  forallb (wf_feature R) features = true ->
  exists result,
    get_latest_time_period R (JList features) = Ok result
    /\ match result with
       | Some p =>
           exists s e, first_valid_latest (s, e) (all_timestamps features)
                       /\ start_ts p = JInt s /\ end_ts p = JInt e
       | None => none_valid (all_timestamps features)
       end.
Proof.
  intros Hwf. destruct (selector_scanned_first features Hwf) as (result & mx & Hrun & m & _ & H).
  exists result. split; [exact Hrun|]. cbn [fst] in H.
  destruct result as [p|]; [|apply H].
  destruct H as (e & Hfirst & Hp). now exists m, e.
Qed.

Lemma first_valid_latest_max (ts : Z * Z) (all : list (Z * Z)) :
  first_valid_latest ts all ->
  In ts all /\ valid ts /\ forall x, In x all -> valid x -> fst x <= fst ts.
Proof.
  intros (before & after & -> & Hv & Hbefore & Hafter). repeat split; try apply Hv.
  - apply in_or_app. right. now left.
  - intros x Hx Hvx. apply in_app_or in Hx as [Hx|[<-|Hx]]; [|lia|auto].
    specialize (Hbefore x Hx Hvx). lia.
Qed.

(** X10. The start of the selected period does not depend on the order of
    the features: for two well-formed feature lists that are permutations
    of each other the selector returns periods with the same start
    timestamp, or null for both. *)
Theorem get_latest_time_period_order (features features' : list json) :
  Permutation features features' ->
  forallb (wf_feature R) features = true ->
  forallb (wf_feature R) features' = true ->
  exists result result',
    get_latest_time_period R (JList features) = Ok result
    /\ get_latest_time_period R (JList features') = Ok result'
    /\ option_map start_ts result = option_map start_ts result'.
Proof.
  intros Hperm Hwf Hwf'.
  destruct (selector_scanned_first features Hwf) as (r & mx & Hrun & m & _ & H).
  destruct (selector_scanned_first features' Hwf') as (r' & mx' & Hrun' & m' & _ & H').
  exists r, r'. split; [exact Hrun|]. split; [exact Hrun'|]. cbn [fst] in H, H'.
  assert (Hall : Permutation (all_timestamps features) (all_timestamps features'))
    by (apply Permutation_flat_map, Hperm).
  destruct r as [p|], r' as [p'|]; cbn [option_map].
  - destruct H as (e & Hf & Hs & _), H' as (e' & Hf' & Hs' & _).
    apply first_valid_latest_max in Hf as (Hin & Hv & Hmax).
    apply first_valid_latest_max in Hf' as (Hin' & Hv' & Hmax').
    apply (Permutation_in _ Hall) in Hin.
    apply (Permutation_in _ (Permutation_sym Hall)) in Hin'.
    specialize (Hmax _ Hin' Hv'). specialize (Hmax' _ Hin Hv). cbn in Hmax, Hmax'.
    rewrite Hs, Hs'. do 2 f_equal. lia.
  - destruct H as (e & Hf & _), H' as [_ Hnone].
    apply first_valid_latest_max in Hf as (Hin & Hv & _).
    apply (Permutation_in _ Hall) in Hin. now destruct (Hnone _ Hin).
  - destruct H' as (e & Hf & _), H as [_ Hnone].
    apply first_valid_latest_max in Hf as (Hin & Hv & _).
    apply (Permutation_in _ (Permutation_sym Hall)) in Hin. now destruct (Hnone _ Hin).
  - reflexivity.
Qed.

End SelectorOrder.

(** *** The exported table, more closely *)

Section TableShape.

Context (R : Runtime).

Lemma csv_row_header (feature props pred : json) (r : row) :
  csv_row R feature props pred = Ok r -> map fst r = csv_header.
Proof.
  unfold csv_row.
  repeat match goal with
         | |- context [Py.bind ?c _] => destruct c; cbn [Py.bind]; [|discriminate]
         end.
  now intros [= <-].
Qed.

Lemma foldM_preserves {A B : Type} (f : A -> B -> py A) (P : A -> Prop) :
  (forall a x a', P a -> f a x = Ok a' -> P a') ->
  forall l a a', P a -> foldM f l a = Ok a' -> P a'.
Proof.
  intros Hstep. induction l as [|x l IH]; simpl; intros a a' Ha.
  - now intros [= <-].
  - destruct (f a x) as [a1|e] eqn:Hx; simpl; [|discriminate].
    apply IH. exact (Hstep a x a1 Ha Hx).
Qed.

(** X11. Every row of every table that [prepare_csv_data] returns has
    exactly the twelve columns of the export, in the order of the header,
    whatever the collection holds. *)
Theorem prepare_csv_data_header (geojson : json) (rows : list row) :
  prepare_csv_data R geojson = Ok rows ->
  Forall (fun r => map fst r = csv_header) rows.
Proof.
  unfold prepare_csv_data.
  destruct (get geojson "features" (JList [])) as [features|e]; [|discriminate].
  cbn [Py.bind]. destruct (iter features) as [fs|e]; [|discriminate]. cbn [Py.bind].
  apply (foldM_preserves (feature_rows R) (Forall (fun r => map fst r = csv_header)));
    [|constructor].
  intros done f done' Hdone. unfold feature_rows.
  destruct (get f "properties" (JDict [])) as [props|e]; [|discriminate]. cbn [Py.bind].
  destruct (get props "monitoring_prediction" (JList [])) as [v|e]; [|discriminate].
  cbn [Py.bind]. destruct (iter v) as [preds|e]; [|discriminate]. cbn [Py.bind].
  apply (foldM_preserves _ (Forall (fun r => map fst r = csv_header))); [|exact Hdone].
  intros acc pred acc' Hacc.
  destruct (csv_row R f props pred) as [r|e] eqn:Hr; cbn [Py.bind]; [|discriminate].
  intros [= <-]. apply Forall_app. split; [exact Hacc|].
  constructor; [|constructor]. exact (csv_row_header f props pred r Hr).
Qed.

Lemma Forall2_functional {A B : Type} (P : A -> B -> Prop) (l : list A) (r1 r2 : list B) :
  (forall x y z, P x y -> P x z -> y = z) ->
  Forall2 P l r1 -> Forall2 P l r2 -> r1 = r2.
Proof.
  intros Hfun H1. revert r2. induction H1 as [|x y l r1 Hxy _ IH]; intros r2 H2.
  - now inversion H2.
  - inversion H2 as [|? z ? r2' Hxz Hrest]; subst. f_equal; eauto.
Qed.

Lemma row_of_functional (pair : json * json) (r r' : row) :
  row_of R pair r -> row_of R pair r' -> r = r'.
Proof. unfold row_of. congruence. Qed.

Lemma wf_features_only (fs : list json) :
  forallb (wf_feature R) fs = true ->
  wf_collection R (JDict [("features", JList fs)]) = true
  /\ pairs_of (JDict [("features", JList fs)])
     = flat_map (fun f => map (pair f) (predictions_of f)) fs.
Proof. intros H. split; [exact H|reflexivity]. Qed.

(** X12. The table is built feature by feature and from the features
    alone: for a well-formed collection whose feature list is [fs1 ++ fs2],
    the table is the table of [fs1] followed by the table of [fs2]; the
    other keys of the collection play no part. *)
Theorem prepare_csv_data_concat (geojson : json) (fs1 fs2 : list json) :
  wf_collection R geojson = true ->
  features_of geojson = (fs1 ++ fs2)%list ->
  exists rows1 rows2,
    prepare_csv_data R (JDict [("features", JList fs1)]) = Ok rows1
    /\ prepare_csv_data R (JDict [("features", JList fs2)]) = Ok rows2
    /\ prepare_csv_data R geojson = Ok (rows1 ++ rows2)%list.
Proof.
  intros Hwf Hsplit.
  destruct (wf_collection_features R geojson Hwf) as [_ Hall].
  rewrite Hsplit, forallb_app in Hall. apply andb_true_iff in Hall as [H1 H2].
  destruct (wf_features_only fs1 H1) as [Hwf1 Hp1].
  destruct (wf_features_only fs2 H2) as [Hwf2 Hp2].
  destruct (prepare_csv_data_rows R _ Hwf1) as (rows1 & Hrun1 & Hrows1).
  destruct (prepare_csv_data_rows R _ Hwf2) as (rows2 & Hrun2 & Hrows2).
  destruct (prepare_csv_data_rows R _ Hwf) as (rows & Hrun & Hrows).
  exists rows1, rows2. split; [exact Hrun1|]. split; [exact Hrun2|].
  rewrite Hrun. f_equal.
  apply (Forall2_functional (row_of R) (pairs_of geojson));
    [exact row_of_functional|exact Hrows|].
  unfold pairs_of at 1. rewrite Hsplit, flat_map_app, <- Hp1, <- Hp2.
  now apply Forall2_app.
Qed.

End TableShape.

(** *** The script, more closely *)

Section Requests.

Context (R : Runtime).

Lemma silent_of_quiet {A : Type} (c : script A) : quiet c -> silent c.
Proof. intros H p. apply H. Qed.

Lemma silent_write (s : session_state) : silent (write s).
Proof. intros p. reflexivity. Qed.

Lemma silent_sbind {A B : Type} (c : script A) (k : A -> script B) :
  silent c -> (forall a, silent (k a)) -> silent (sbind c k).
Proof.
  intros Hc Hk p. unfold sbind. specialize (Hc p).
  destruct (c p) as [p' [a|e]]; cbn [fst] in *; [|exact Hc].
  now rewrite Hk.
Qed.

Lemma sbind_sent {A B : Type} (c : script A) (k : A -> script B) (p : page) :
  (forall a, silent (k a)) ->
  sent (fst (sbind c k p)) = sent (fst (c p)).
Proof.
  intros Hk. unfold sbind. destruct (c p) as [p' [a|e]]; cbn [fst]; [apply Hk|reflexivity].
Qed.

Create HintDb silent.
#[local] Hint Resolve silent_write : silent.
#[local] Hint Extern 1 (silent _) =>
  apply silent_of_quiet;
  first [ apply quiet_sret | apply quiet_eval | apply quiet_read
        | apply quiet_show | apply quiet_run_ui ] : silent.

Ltac silent_steps :=
  repeat first
    [ apply silent_sbind; [|intros ?]
    | solve [auto with silent]
    | match goal with |- silent (if ?x then _ else _) => destruct x end ].

Lemma silent_after_fetch (api_response : json) :
  silent (fun p =>
            (if truthy api_response then
               sbind (store_raw_response api_response)
                 (fun _ =>
                    sbind (run_ui (parse_geojson_data R api_response))
                      (fun geojson =>
                         if truthy geojson then
                           sbind (store_geojson_data geojson)
                             (fun _ =>
                                sbind (eval (get geojson "features" (JList [])))
                                  (fun features =>
                                     sbind (eval (get_latest_time_period R features))
                                       (fun latest =>
                                          sbind (store_latest_period latest)
                                            (fun _ =>
                                               sbind (eval (len features))
                                                 (fun n =>
                                                    show (StSuccess
                                                            ("Data fetched successfully! Found "
                                                             ++ Str.of_Z n ++ " fields.")))))))
                         else sret tt))
             else sret tt) p).
Proof.
  unfold store_raw_response, store_geojson_data, store_latest_period.
  destruct (truthy api_response); [|intros p; reflexivity].
  change (silent (sbind (sbind read (fun s => write {| geojson_data := geojson_data s;
                                                        latest_period := latest_period s;
                                                        raw_response := api_response |}))
                    (fun _ => sbind (run_ui (parse_geojson_data R api_response))
                      (fun geojson =>
                         if truthy geojson then
                           sbind (sbind read (fun s => write {| geojson_data := geojson;
                                                                latest_period := latest_period s;
                                                                raw_response := raw_response s |}))
                             (fun _ =>
                                sbind (eval (get geojson "features" (JList [])))
                                  (fun features =>
                                     sbind (eval (get_latest_time_period R features))
                                       (fun latest =>
                                          sbind (sbind read (fun s => write {| geojson_data := geojson_data s;
                                                                               latest_period := latest;
                                                                               raw_response := raw_response s |}))
                                            (fun _ =>
                                               sbind (eval (len features))
                                                 (fun n =>
                                                    show (StSuccess
                                                            ("Data fetched successfully! Found "
                                                             ++ Str.of_Z n ++ " fields.")))))))
                         else sret tt)))).
  silent_steps.
Qed.

(** X13. One request per click with a key, and no other: a run of the page
    sends exactly the monitoring request when Fetch was clicked and a key is
    set, and nothing in every other run, whatever the response is and
    whether or not the script raises afterwards. There is no retry. *)
Theorem run_sends_once (i : inputs) (s : session_state) :
  sent (fst (run R i s))
  = if fetch_button i && negb (String.eqb (api_key i) "")
    then [monitor_request (api_key i) (s2_cell_id i)]
    else [].
Proof.
  unfold run, run_page.
  rewrite sbind_sent by (intros; apply silent_of_quiet, quiet_display).
  destruct (fetch_button i) eqn:Hclick; cbn [andb];
    [|unfold fetch_handler; rewrite Hclick; reflexivity].
  destruct (String.eqb_spec (api_key i) "") as [Hkey|Hkey]; cbn [negb].
  - now rewrite (fetch_handler_without_key R i _ Hclick Hkey).
  - rewrite (fetch_handler_with_key R i _ Hclick Hkey).
    rewrite sbind_sent by (intros; apply silent_after_fetch).
    unfold fetch_agri_data, sbind, show, post, fresh_page. cbn [session shown sent app].
    destruct (requests_post R _); reflexivity.
Qed.

(** X14. A run that does not follow a click is the display alone: it sends
    nothing and leaves the session as it was, so the stored collection,
    period and raw response survive every other interaction with the page. *)
Theorem rerun_keeps_session (i : inputs) (s : session_state) :
  fetch_button i = false ->
  run R i s = display R i (fresh_page s)
  /\ session (fst (run R i s)) = s
  /\ sent (fst (run R i s)) = [].
Proof.
  intros Hclick.
  assert (Hrun : run R i s = display R i (fresh_page s))
    by (unfold run, run_page, sbind, fetch_handler; rewrite Hclick; reflexivity).
  rewrite Hrun. destruct (quiet_display R i (fresh_page s)) as (Hsent & Hsession & _).
  auto.
Qed.

(** X15. A successful fetch replaces the session wholesale: when the
    response is truthy, its payload decodes to a truthy collection and the
    selector returns, the handler stores the new response, the new
    collection and the period selected from it, whatever was stored before,
    and reports the number of features. *)
Theorem successful_fetch_replaces_session (i : inputs) (s : session_state)
        (body geojson features : json) (latest : option period) :
  fetch_button i = true -> api_key i <> "" ->
  requests_post R (monitor_request (api_key i) (s2_cell_id i)) = inr body ->
  truthy body = true ->
  embedded_geojson R body = Ok geojson -> truthy geojson = true ->
  get geojson "features" (JList []) = Ok features ->
  get_latest_time_period R features = Ok latest ->
  exists n,
    len features = Ok n
    /\ fetch_handler R i (fresh_page s)
       = ({| session := {| geojson_data := geojson;
                           latest_period := latest;
                           raw_response := body |};
             shown := [ StSpinner "Fetching data from API...";
                        StSuccess ("Data fetched successfully! Found "
                                   ++ Str.of_Z n ++ " fields.") ];
             sent := [monitor_request (api_key i) (s2_cell_id i)] |}, Ok tt).
Proof.
  intros Hclick Hkey Hpost Hbody Hparse Hgeo Hfeatures Hlatest.
  destruct (get_latest_time_period_len R features latest Hlatest) as (n & Hlen).
  exists n. split; [exact Hlen|].
  rewrite (fetch_handler_with_key R i _ Hclick Hkey).
  unfold sbind, fetch_agri_data, sbind, show, post, fresh_page. cbn [session shown sent app].
  rewrite Hpost. unfold sret. rewrite Hbody.
  unfold store_raw_response, store_geojson_data, store_latest_period,
    sbind, read, write, run_ui, parse_geojson_data, eval.
  rewrite Hparse. cbn [uret fst snd session shown sent app]. rewrite Hgeo.
  cbn [session geojson_data latest_period raw_response shown sent].
  rewrite Hfeatures, Hlatest, Hlen. reflexivity.
Qed.

(** X16. An exception after parsing leaves a mixed session. When the
    decoded collection is truthy but reading its features raises (the
    collection is no object) or the selector raises (a timestamp is no
    number), the run ends with that exception: the new response and the new
    collection are already stored, the period is still the one of the
    earlier fetch, and neither a success message nor the display is shown. *)
Theorem failed_selection_keeps_old_period (i : inputs) (s : session_state)
        (body geojson : json) (e : exn) :
  fetch_button i = true -> api_key i <> "" ->
  requests_post R (monitor_request (api_key i) (s2_cell_id i)) = inr body ->
  truthy body = true ->
  embedded_geojson R body = Ok geojson -> truthy geojson = true ->
  (features <- get geojson "features" (JList []) ;; get_latest_time_period R features)
  = Raise e ->
  run R i s
  = ({| session := {| geojson_data := geojson;
                      latest_period := latest_period s;
                      raw_response := body |};
        shown := [StSpinner "Fetching data from API..."];
        sent := [monitor_request (api_key i) (s2_cell_id i)] |}, Raise e).
Proof.
  intros Hclick Hkey Hpost Hbody Hparse Hgeo Hraise.
  unfold run, run_page. unfold sbind at 1.
  rewrite (fetch_handler_with_key R i _ Hclick Hkey).
  unfold sbind, fetch_agri_data, sbind, show, post, fresh_page. cbn [session shown sent app].
  rewrite Hpost. unfold sret. rewrite Hbody.
  unfold store_raw_response, store_geojson_data, store_latest_period,
    sbind, read, write, run_ui, parse_geojson_data, eval.
  rewrite Hparse. cbn [uret fst snd session shown sent app]. rewrite Hgeo.
  cbn [session geojson_data latest_period raw_response shown sent].
  destruct (get geojson "features" (JList [])) as [features|e']; cbn [Py.bind] in Hraise.
  - rewrite Hraise. reflexivity.
  - now injection Hraise as ->.
Qed.

End Requests.

(** *** The display with a bad identifier *)

Section DisplayWithoutMap.

Context (R : Runtime).

Lemma features_truthy_collection (geojson : json) :
  is_dict geojson = true ->
  truthy (field_or "features" (JList []) geojson) = true ->
  truthy geojson = true.
Proof.
  destruct geojson as [| | | | | |d]; try discriminate. intros _.
  unfold field_or, field, entries. destruct d; [discriminate|reflexivity].
Qed.

(** X17. A cell identifier that is no number costs only the map. With a
    well-formed collection that has features and a period stored, the
    display shows the banner, the CSV download of the whole table, the
    error about the identifier in place of the map, and the count of the
    fields; whatever follows (the remaining statistics and the viewer of the
    raw response, as far as the formatting of the runtime allows) holds no
    map. *)
Theorem display_without_map (i : inputs) (s : session_state) :
  wf_collection R (geojson_data s) = true ->
  truthy (field_or "features" (JList []) (geojson_data s)) = true ->
  has_period (latest_period s) = true ->
  py_int R (s2_cell_id i) = None ->
  exists rows rest,
    prepare_csv_data R (geojson_data s) = Ok rows
    /\ shown (fst (display R i (fresh_page s)))
       = ([ StInfo "📅 **Displaying Latest Season Data";
            StDownloadButton "📥 Download CSV" (to_csv R rows)
                             ("agri_landscape_" ++ s2_cell_id i ++ ".csv") "text/csv";
            StError "Invalid S2 Cell ID format. Please ensure it is a numeric ID.";
            StSubheader "📊 Summary Statistics";
            StMetric "Total Fields" (JInt (Z.of_nat (List.length (features_of (geojson_data s))))) ]
          ++ rest)%list
    /\ forallb (fun w => negb (is_folium w)) rest = true.
Proof.
  intros Hwf Hfeatures Hperiod Hint.
  destruct (prepare_csv_data_rows R _ Hwf) as (rows & Hrows & _).
  destruct (wf_collection_features R _ Hwf) as [Hget _].
  assert (Hdict : is_dict (geojson_data s) = true)
    by (destruct (geojson_data s); try discriminate; reflexivity).
  pose proof (features_truthy_collection _ Hdict Hfeatures) as Htruthy.
  assert (Hflist : field_or "features" (JList []) (geojson_data s)
                   = JList (features_of (geojson_data s))).
  { destruct (geojson_data s) as [| | | | | |d]; try discriminate.
    unfold get in Hget. unfold field_or, field, entries. congruence. }
  rewrite Hflist in Hfeatures.
  assert (Hmap : create_map R (geojson_data s) (s2_cell_id i) true
                 = ([StError "Invalid S2 Cell ID format. Please ensure it is a numeric ID."],
                    Ok None)).
  { unfold create_map, ubind, lift, emit, uret, map_center.
    rewrite Hget, Hint. cbn [Py.bind]. rewrite Hfeatures. reflexivity. }
  exists rows.
  unfold display, sbind, read, fresh_page. cbn [session fst snd].
  rewrite Htruthy, Hperiod. cbn [andb].
  unfold display_data, sbind, show, eval, run_ui. cbn [session shown sent app fst snd].
  rewrite Hrows, Hmap. cbn [fst snd app sret session shown sent].
  unfold sret. cbn [session shown sent app fst snd]. rewrite Hget.
  cbn [len session shown sent app fst snd].
  destruct (total_area_of R _) as [total|e];
    [|eexists; split; [reflexivity|split; reflexivity]].
  destruct (format R total ".2f") as [total_text|e];
    [|eexists; split; [reflexivity|split; reflexivity]].
  cbn [session shown sent app fst snd]. rewrite Hfeatures. cbn [Py.bind].
  destruct (truediv R total _) as [avg|e];
    [|eexists; split; [reflexivity|split; reflexivity]].
  destruct (format R avg ".2f") as [avg_text|e];
    eexists; (split; [reflexivity|split; reflexivity]).
Qed.

End DisplayWithoutMap.

(** *** The collections the display is given *)

Section Reachable.

Lemma iter_of_falsy (features : json) (fs : list json) :
  truthy features = false -> iter features = Ok fs -> fs = [].
Proof.
  destruct features as [| | | |t|l|d]; try discriminate.
  - destruct t; [|discriminate]. now intros _ [= <-].
  - destruct l; [|discriminate]. now intros _ [= <-].
  - destruct d; [|discriminate]. now intros _ [= <-].
Qed.

(** The selector finds no period in features that are empty. *)
Lemma selected_of_falsy (R : Runtime) (features : json) (fs : list json) :
  truthy features = false -> iter features = Ok fs ->
  get_latest_time_period R features = Ok None.
Proof.
  intros Hfalsy Hiter. unfold get_latest_time_period.
  rewrite Hiter, (iter_of_falsy features fs Hfalsy Hiter). reflexivity.
Qed.

Lemma features_seen_stored (s s' : session_state) :
  geojson_data s' = geojson_data s -> latest_period s' = latest_period s ->
  features_seen s -> features_seen s'.
Proof. unfold features_seen. now intros -> ->. Qed.

(** The handler keeps [features_seen], whichever of its stores it reaches. *)
Lemma features_seen_handler (R : Runtime) (i : inputs) (s : session_state) :
  features_seen s -> features_seen (session (fst (fetch_handler R i (fresh_page s)))).
Proof.
  intros Hseen.
  destruct (fetch_button i) eqn:Hclick;
    [|unfold fetch_handler; rewrite Hclick; exact Hseen].
  destruct (String.eqb_spec (api_key i) "") as [Hkey|Hkey];
    [now rewrite (fetch_handler_without_key R i _ Hclick Hkey)|].
  rewrite (fetch_handler_with_key R i _ Hclick Hkey).
  unfold sbind, fetch_agri_data, sbind, show, post, fresh_page. cbn [session shown sent app].
  destruct (requests_post R _) as [msg|body]; [exact Hseen|].
  unfold sret. destruct (truthy body); [|exact Hseen].
  unfold store_raw_response, store_geojson_data, store_latest_period,
    sbind, read, write, run_ui, parse_geojson_data, eval.
  destruct (embedded_geojson R body) as [geojson|e];
    cbn [uret ubind emit fst snd session shown sent app];
    [|now apply (features_seen_stored s)].
  destruct (truthy geojson); [|now apply (features_seen_stored s)].
  cbn [session geojson_data latest_period raw_response shown sent fst].
  destruct (get geojson "features" (JList [])) as [features|e] eqn:Hget.
  2:{ intros _ features' fs. cbn [session geojson_data fst]. congruence. }
  destruct (get_latest_time_period R features) as [latest|e] eqn:Hlatest.
  - assert (Hstored : features_seen {| geojson_data := geojson; latest_period := latest;
                                       raw_response := body |}).
    { intros Hperiod features' fs. cbn [geojson_data latest_period] in *.
      rewrite Hget. intros [= <-] Hiter.
      destruct (truthy features) eqn:Htruthy; [reflexivity|].
      rewrite (selected_of_falsy R features fs Htruthy Hiter) in Hlatest.
      injection Hlatest as <-. discriminate. }
    cbn [session geojson_data latest_period raw_response shown sent fst].
    destruct (len features); exact Hstored.
  - intros _ features' fs. cbn [session geojson_data fst].
    rewrite Hget. intros [= <-] Hiter.
    destruct (truthy features) eqn:Htruthy; [reflexivity|].
    rewrite (selected_of_falsy R features fs Htruthy Hiter) in Hlatest. discriminate.
Qed.

Lemma features_seen_reachable (s : session_state) : reachable s -> features_seen s.
Proof.
  induction 1 as [|R i s _ IH]; [discriminate|].
  pose proof (features_seen_handler R i s IH) as Hhandler.
  unfold run, run_page, sbind.
  destruct (fetch_handler R i (fresh_page s)) as [p' [[]|e]]; cbn [fst] in *;
    [|exact Hhandler].
  destruct (quiet_display R i p') as (_ & -> & _). exact Hhandler.
Qed.

(** X19. The map is only ever asked for a collection with features. In
    every session a visitor can get to, whatever the endpoint and the
    libraries have answered in the runs before, when a period is stored and
    the table of the CSV download has been made of the stored collection
    (the display makes it before it calls [create_map]), that collection is
    an object whose features are not empty. So the one call of [create_map]
    in the page never takes the exit for empty features, and with a cell
    identifier that [int] rejects it reports the invalid identifier and
    returns no map. *)
Theorem displayed_collection_has_features (R : Runtime) (s : session_state)
        (rows : list row) :
  reachable s ->
  has_period (latest_period s) = true ->
  prepare_csv_data R (geojson_data s) = Ok rows ->
  is_dict (geojson_data s) = true
  /\ truthy (field_or "features" (JList []) (geojson_data s)) = true
  /\ forall cell_id_input use_latest,
       py_int R cell_id_input = None ->
       create_map R (geojson_data s) cell_id_input use_latest
       = ([StError "Invalid S2 Cell ID format. Please ensure it is a numeric ID."],
          Ok None).
Proof.
  intros Hreach Hperiod Hrows.
  pose proof (features_seen_reachable s Hreach Hperiod) as Hseen.
  unfold prepare_csv_data in Hrows.
  destruct (geojson_data s) as [| | | | | |d]; try discriminate.
  unfold get in Hseen, Hrows. cbn [Py.bind] in Hrows.
  unfold field_or, field, entries.
  destruct (iter _) as [fs|e] eqn:Hiter; [|discriminate].
  pose proof (Hseen _ fs eq_refl Hiter) as Htruthy.
  repeat split; [exact Htruthy|].
  intros cell_id_input use_latest Hint.
  unfold create_map, ubind, lift, emit, uret, map_center, get.
  rewrite Hint. cbn [Py.bind]. now rewrite Htruthy.
Qed.

End Reachable.

(** *** The further properties at work *)

Lemma overlay_follows_latest_prediction_witness :
  exists p,
    first_latest p (predictions_of (feature "field-1" [kharif_2023; rabi_2023]))
    /\ feature_crop_name (feature "field-1" [kharif_2023; rabi_2023])
       = Ok (field_or "crop_1" (JStr "NO_PREDICTION") (crop_prediction_of p))
    /\ create_feature_popup forbidden (feature "field-1" [kharif_2023; rabi_2023]) true
       = Ok (FieldInfo "field-1" "1200.00" "November 2023" "March 2024"
                       "WHEAT" "100.00%" "N/A" "0.00%").
Proof.
  destruct (overlay_follows_latest_prediction forbidden
              (feature "field-1" [kharif_2023; rabi_2023]))
    as (p & Hfirst & Hcrop & _); [reflexivity|discriminate|].
  exists p. split; [exact Hfirst|]. split; [exact Hcrop|reflexivity].
Defined.

Lemma create_map_reports_conversion_error_witness :
  create_map (off_grid two_fields) two_fields "3486736072451293184" true
  = ([StError "Error calculating map center: cell id out of range"], Ok None).
Proof.
  exact (create_map_reports_conversion_error (off_grid two_fields) two_fields
           "3486736072451293184" true 3486736072451293184
           (Exn OverflowError "cell id out of range") eq_refl eq_refl eq_refl eq_refl).
Defined.

Lemma create_map_shape_witness :
  exists m,
    create_map forbidden two_fields "3486736072451293184" true = ([], Ok (Some m))
    /\ (exists n, py_int forbidden "3486736072451293184" = Some n
                  /\ cell_center forbidden n = Ok (location m))
    /\ zoom_start m = 13
    /\ legend m = legend_entries
    /\ (exists fs,
           (features <- get two_fields "features" (JList []) ;; iter features) = Ok fs
           /\ fs <> []
           /\ map feature_of (overlays m) = fs
           /\ Forall (fun f => folium_geojson forbidden f = Ok tt) fs)
    /\ create_map forbidden two_fields "3486736072451293184" (negb true)
       = create_map forbidden two_fields "3486736072451293184" true.
Proof.
  eexists. split; [vm_compute; reflexivity|].
  apply (proj2 (create_map_shape forbidden two_fields "3486736072451293184" true [] _
                  ltac:(vm_compute; reflexivity))).
Defined.

Lemma create_map_raises_on_crop_witness :
  feature_overlay forbidden (feature "field-1" [unnamed_crop])
  = Raise (no_attribute JNull "upper")
  /\ exists e,
       create_map forbidden (collection [feature "field-1" [unnamed_crop]])
                  "3486736072451293184" true
       = ([], Raise e).
Proof.
  apply (create_map_raises_on_crop forbidden
           (collection [feature "field-1" [unnamed_crop]]) "3486736072451293184" true
           [feature "field-1" [unnamed_crop]] (feature "field-1" [unnamed_crop]) JNull).
  - reflexivity.
  - now left.
  - reflexivity.
  - discriminate.
  - eexists. eexists. split; reflexivity.
Defined.

Lemma get_latest_time_period_first_witness :
  exists result,
    get_latest_time_period forbidden (JList (features_of two_fields)) = Ok result
    /\ match result with
       | Some p =>
           exists s e, first_valid_latest (s, e) (all_timestamps (features_of two_fields))
                       /\ start_ts p = JInt s /\ end_ts p = JInt e
       | None => none_valid (all_timestamps (features_of two_fields))
       end.
Proof.
  apply (get_latest_time_period_first forbidden (features_of two_fields)).
  vm_compute; reflexivity.
Defined.

Lemma get_latest_time_period_order_witness :
  exists result result',
    get_latest_time_period forbidden
      (JList [feature "field-1" [rabi_2023]; feature "field-2" [kharif_2023]]) = Ok result
    /\ get_latest_time_period forbidden
         (JList [feature "field-2" [kharif_2023]; feature "field-1" [rabi_2023]]) = Ok result'
    /\ option_map start_ts result = option_map start_ts result'.
Proof.
  apply (get_latest_time_period_order forbidden).
  - apply perm_swap.
  - vm_compute; reflexivity.
  - vm_compute; reflexivity.
Defined.

Lemma prepare_csv_data_header_witness :
  exists rows,
    prepare_csv_data forbidden two_fields = Ok rows
    /\ List.length rows = 3%nat
    /\ Forall (fun r => map fst r = csv_header) rows.
Proof.
  eexists. split; [vm_compute; reflexivity|]. split; [reflexivity|].
  apply (prepare_csv_data_header forbidden two_fields). vm_compute; reflexivity.
Defined.

Lemma prepare_csv_data_concat_witness :
  exists rows1 rows2,
    prepare_csv_data forbidden
      (JDict [("features", JList [feature "field-1" [rabi_2023; kharif_2023]])]) = Ok rows1
    /\ prepare_csv_data forbidden
         (JDict [("features", JList [feature "field-2" [kharif_2023]])]) = Ok rows2
    /\ prepare_csv_data forbidden two_fields = Ok (rows1 ++ rows2)%list.
Proof.
  apply (prepare_csv_data_concat forbidden two_fields
           [feature "field-1" [rabi_2023; kharif_2023]] [feature "field-2" [kharif_2023]]).
  - vm_compute; reflexivity.
  - reflexivity.
Defined.

Lemma rerun_keeps_session_witness :
  run forbidden (idle "3486736072451293184") earlier
  = display forbidden (idle "3486736072451293184") (fresh_page earlier)
  /\ session (fst (run forbidden (idle "3486736072451293184") earlier)) = earlier
  /\ sent (fst (run forbidden (idle "3486736072451293184") earlier)) = [].
Proof.
  apply (rerun_keeps_session forbidden (idle "3486736072451293184") earlier). reflexivity.
Defined.

Lemma successful_fetch_replaces_session_witness :
  exists n,
    len (JList (features_of two_fields)) = Ok n
    /\ fetch_handler (answering two_fields) (clicked (Some "secret"))
         (fresh_page initial_session)
       = ({| session := {| geojson_data := two_fields;
                           latest_period := latest_period earlier;
                           raw_response := envelope "(the collection)" |};
             shown := [ StSpinner "Fetching data from API...";
                        StSuccess ("Data fetched successfully! Found "
                                   ++ Str.of_Z n ++ " fields.") ];
             sent := [monitor_request "secret" "3486736072451293184"] |}, Ok tt).
Proof.
  refine (successful_fetch_replaces_session (answering two_fields)
            (clicked (Some "secret")) initial_session
            (envelope "(the collection)") two_fields (JList (features_of two_fields))
            (latest_period earlier) eq_refl _ eq_refl eq_refl eq_refl eq_refl eq_refl _).
  - discriminate.
  - vm_compute; reflexivity.
Defined.

Lemma failed_selection_keeps_old_period_witness :
  run (answering (collection [feature "field-1" [text_start]]))
      (clicked (Some "secret")) earlier
  = ({| session := {| geojson_data := collection [feature "field-1" [text_start]];
                      latest_period := latest_period earlier;
                      raw_response := envelope "(the collection)" |};
        shown := [StSpinner "Fetching data from API..."];
        sent := [monitor_request "secret" "3486736072451293184"] |},
     Raise (not_supported ">" (JStr "1685577600") (JInt 0))).
Proof.
  refine (failed_selection_keeps_old_period
            (answering (collection [feature "field-1" [text_start]]))
            (clicked (Some "secret")) earlier (envelope "(the collection)")
            (collection [feature "field-1" [text_start]])
            (not_supported ">" (JStr "1685577600") (JInt 0))
            eq_refl _ eq_refl eq_refl eq_refl eq_refl _).
  - discriminate.
  - vm_compute; reflexivity.
Defined.

Lemma displayed_collection_has_features_witness :
  reachable (session (fst (run (answering two_fields) (clicked (Some "secret"))
                               initial_session)))
  /\ create_map forbidden two_fields "not-a-cell" true
     = ([StError "Invalid S2 Cell ID format. Please ensure it is a numeric ID."], Ok None).
Proof.
  split; [apply reachable_run, reachable_initial|].
  refine (proj2 (proj2 (displayed_collection_has_features forbidden
                          (session (fst (run (answering two_fields)
                                             (clicked (Some "secret")) initial_session)))
                          (match prepare_csv_data forbidden two_fields with
                           | Ok rows => rows
                           | Raise _ => []
                           end)
                          (reachable_run _ _ _ reachable_initial) _ _))
                "not-a-cell" true _); vm_compute; reflexivity.
Defined.

Lemma display_without_map_witness :
  exists rows rest,
    prepare_csv_data forbidden (geojson_data earlier) = Ok rows
    /\ shown (fst (display forbidden (idle "not-a-cell") (fresh_page earlier)))
       = ([ StInfo "📅 **Displaying Latest Season Data";
            StDownloadButton "📥 Download CSV" (to_csv forbidden rows)
                             ("agri_landscape_" ++ s2_cell_id (idle "not-a-cell") ++ ".csv")
                             "text/csv";
            StError "Invalid S2 Cell ID format. Please ensure it is a numeric ID.";
            StSubheader "📊 Summary Statistics";
            StMetric "Total Fields"
                     (JInt (Z.of_nat (List.length (features_of (geojson_data earlier))))) ]
          ++ rest)%list
    /\ forallb (fun w => negb (is_folium w)) rest = true.
Proof.
  apply (display_without_map forbidden (idle "not-a-cell") earlier);
    vm_compute; reflexivity.
Defined.

(** *** The total area *)

Section TotalArea.

Context (R : Runtime).

Hypothesis add_ints : forall a b, add R (JInt a) (JInt b) = Ok (JInt (a + b)).

Lemma total_area_from (fs : list json) (acc : Z) :
  forallb (wf_feature R) fs = true ->
  forallb int_area fs = true ->
  foldM (fun total f =>
           props <- get f "properties" (JDict []) ;;
           area <- get props "area_sq_m" (JInt 0) ;;
           add R total area)
        fs (JInt acc)
  = Ok (JInt (acc + fold_right Z.add 0 (map area_of fs))).
Proof.
  revert acc. induction fs as [|f fs IH]; intros acc Hwf Hint; cbn [foldM map fold_right].
  - now rewrite Z.add_0_r.
  - cbn [forallb] in Hwf, Hint.
    apply andb_true_iff in Hwf as [Hf Hwf]. apply andb_true_iff in Hint as [Ha Hint].
    destruct (wf_feature_predictions R f Hf) as (_ & Hp & Hprops & _).
    rewrite Hprops. cbn [Py.bind].
    unfold int_area, area_of, field, entries in *.
    destruct (properties_of f) as [| | | | | |pd]; try discriminate. cbn [get].
    destruct (assoc "area_sq_m" pd) as [[| | a | | | |]|]; try discriminate;
      cbn [Py.bind]; rewrite add_ints; cbn [Py.bind]; rewrite IH by auto; f_equal; f_equal; lia.
Qed.

(** X18. With integer addition as Python has it, the total area shown for
    well-formed features whose areas are ints is the sum of the areas,
    where a feature without an area counts for zero and an empty list gives
    zero. *)
Theorem total_area_is_sum (fs : list json) :
  forallb (wf_feature R) fs = true ->
  forallb int_area fs = true ->
  total_area_of R (JList fs) = Ok (JInt (fold_right Z.add 0 (map area_of fs))).
Proof.
  intros Hwf Hint. unfold total_area_of. cbn [iter Py.bind].
  now rewrite (total_area_from fs 0 Hwf Hint).
Qed.

End TotalArea.

Lemma total_area_is_sum_witness :
  total_area_of forbidden
    (JList [ feature "field-1" [rabi_2023];
             JDict [("id", JStr "field-2"); ("properties", JDict [])];
             feature "field-3" [] ])
  = Ok (JInt (1200 + (0 + (1200 + 0)))).
Proof.
  apply (total_area_is_sum forbidden (fun a b => eq_refl)
           [ feature "field-1" [rabi_2023];
             JDict [("id", JStr "field-2"); ("properties", JDict [])];
             feature "field-3" [] ]);
    vm_compute; reflexivity.
Defined.

End Properties.
